(** * LCR Area Calculations, Module A: the web front end

    A shallow embedding of the React front end of the plan-set area
    calculator: the coordinate maps, hit test and click handler of
    [PlanViewer.jsx], the CSV export and review rendering of
    [ResultsPanel.jsx], the gate of [FileUpload.jsx], and the submit-then-poll
    protocol of [App.jsx] with [api.js].

    Numbers are exact rationals ([Q]); a state hook is a record field and a
    handler is a function from the component state to the next one, together
    with the calls it makes. *)

From Stdlib Require Import QArith Qabs Qfield Lqa.
From stdpp Require Import base option list strings gmap.

Local Open Scope string_scope.

(** ** JavaScript values as the components use them *)

Module Js.

(** Truthiness of a string that may be absent: the empty string, [null] and
    [undefined] are falsy. *)
Definition truthy_string (s : option string) : bool :=
  match s with
  | Some s => negb (String.eqb s "")
  | None => false
  end.

(** [a || d] on such a string. *)
Definition string_or (s : option string) (d : string) : string :=
  match s with
  | Some v => if String.eqb v "" then d else v
  | None => d
  end.

(** [a || b] on a number that may be absent: [0] is falsy. *)
Definition number_or (n : option Q) (d : Q) : Q :=
  match n with
  | Some v => if Qeq_bool v 0 then d else v
  | None => d
  end.

(** [a || b] on two references to arrays or objects: every object is
    truthy, the empty array included. *)
Definition object_or {A} (a b : option A) : option A :=
  match a with
  | Some v => Some v
  | None => b
  end.

(** [a < b] and [a > b] on numbers. *)
Definition lt (a b : Q) : bool := negb (Qle_bool b a).
Definition gt (a b : Q) : bool := lt b a.

(** [a !== b] on booleans. *)
Definition bool_neq (a b : bool) : bool := xorb a b.

(** [arr.includes(s)] on an array of strings. *)
Fixpoint includes (arr : list string) (s : string) : bool :=
  match arr with
  | [] => false
  | a :: arr' => if String.eqb a s then true else includes arr' s
  end.

(** [s.replace(pat, rep)] with a string pattern: the first occurrence of
    [pat] in [s] is replaced, the rest of [s] is kept. *)
Fixpoint replace (pat rep s : string) : string :=
  if String.prefix pat s then
    rep +:+ String.substring (String.length pat) (String.length s - String.length pat) s
  else
    match s with
    | EmptyString => EmptyString
    | String c s' => String c (replace pat rep s')
    end.

End Js.

(** ** The result schema the components consume *)

(** A vertex [[x, y]] in PDF coordinate space. *)
Definition Coord : Type := (Q * Q)%type.

Record Polygon := mkPolygon {
  poly_id : string;
  poly_sheet : Z;
  poly_type : string;
  area_sqft : Q;
  confidence : Q;
  coords_pdf : option (list Coord);
  coordinates : option (list Coord);
  review_needed : bool;
  review_reasons : option (list string)
}.

Record Sheet := mkSheet {
  sheet_number : Z;
  pdf_width : option Q;
  pdf_height : option Q;
  polygons_count : Z;
  sheet_polygons : list Polygon
}.

Record Results := mkResults {
  filename : string;
  sheets_processed : Z;
  polygons : list Polygon;
  sheets : list Sheet
}.

(** The polygon [{ ...p, type: t }]. *)
Definition with_type (p : Polygon) (t : string) : Polygon :=
  mkPolygon (poly_id p) (poly_sheet p) t (area_sqft p) (confidence p)
    (coords_pdf p) (coordinates p) (review_needed p) (review_reasons p).

(** ** PlanViewer.jsx *)

Module PlanViewer.

Record Point := mkPoint { x : Q; y : Q }.

Record Dimensions := mkDimensions { width : Q; height : Q }.

(** What [canvas.getBoundingClientRect()] contributes to the handlers. *)
Record Rect := mkRect { left : Q; top : Q }.

Record Colors := mkColors { fill : string; stroke : string; label : string }.

(** [SURFACE_COLORS.pervious], the entry the lookup falls back to. *)
Definition SURFACE_COLORS_pervious : Colors :=
  mkColors "rgba(0, 200, 0, 0.3)" "rgb(0, 200, 0)" "Perv".

(** The object literal [SURFACE_COLORS], as a map over its own keys. *)
Definition SURFACE_COLORS : gmap string Colors :=
  {[ "building" := mkColors "rgba(200, 0, 0, 0.4)" "rgb(200, 0, 0)" "Bldg";
     "concrete" := mkColors "rgba(128, 128, 128, 0.4)" "rgb(128, 128, 128)" "Conc";
     "asphalt" := mkColors "rgba(50, 50, 50, 0.4)" "rgb(50, 50, 50)" "Asph";
     "pervious" := SURFACE_COLORS_pervious;
     "water" := mkColors "rgba(0, 100, 200, 0.4)" "rgb(0, 100, 200)" "Water" ]}.

(** The hooks of the component and the canvas it refers to, when mounted. *)
Record State := mkState {
  selectedPolygon : option string;
  hoveredPolygon : option string;
  imageLoaded : bool;
  viewDimensions : Dimensions;
  canvas : option Rect
}.

Record Props := mkProps {
  sheet : Sheet;
  highlightedPolygonId : option string;
  onPolygonSelect : bool
}.

(** [sheet.pdf_width || 612] and [sheet.pdf_height || 792]. *)
Definition pdfWidth (s : Sheet) : Q := Js.number_or (pdf_width s) 612.
Definition pdfHeight (s : Sheet) : Q := Js.number_or (pdf_height s) 792.

Definition mapPdfToScreen (s : Sheet) (pdfX pdfY vw vh : Q) : Point :=
  if Qeq_bool vw 0 || Qeq_bool vh 0 then mkPoint 0 0
  else
    let scaleX := (vw / pdfWidth s)%Q in
    let scaleY := (vh / pdfHeight s)%Q in
    mkPoint (pdfX * scaleX) ((pdfHeight s - pdfY) * scaleY).

Definition mapScreenToPdf (s : Sheet) (view : Dimensions) (screenX screenY : Q) : Point :=
  if Qeq_bool (width view) 0 || Qeq_bool (height view) 0 then mkPoint 0 0
  else
    let scaleX := (width view / pdfWidth s)%Q in
    let scaleY := (height view / pdfHeight s)%Q in
    mkPoint (screenX / scaleX) (pdfHeight s - screenY / scaleY).

(** One turn of the ray-casting loop: does the edge from vertex [j] to
    vertex [i] cross the horizontal ray from [(px, py)]? The division is
    behind the [&&], so it runs only when [yi] and [yj] differ. *)
Definition intersect (px py : Q) (vi vj : Coord) : bool :=
  let '(xi, yi) := vi in
  let '(xj, yj) := vj in
  Js.bool_neq (Js.gt yi py) (Js.gt yj py)
  && Js.lt px ((xj - xi) * (py - yi) / (yj - yi) + xi).

(** [for (i = 0, j = n - 1; i < n; j = i++)]: [vj] is the vertex at [j],
    [rest] the vertices from index [i] on. *)
Fixpoint ray_loop (px py : Q) (vj : Coord) (rest : list Coord) (inside : bool) : bool :=
  match rest with
  | [] => inside
  | vi :: rest' =>
      ray_loop px py vi rest' (if intersect px py vi vj then negb inside else inside)
  end.

Definition isPointInPolygonPdf (px py : Q) (coordsPdf : list Coord) : bool :=
  match coordsPdf with
  | [] => false
  | v0 :: _ => ray_loop px py (List.last coordsPdf v0) coordsPdf false
  end.

(** [coords && isPointInPolygonPdf(pdfPt.x, pdfPt.y, coords)] with
    [coords = polygon.coords_pdf || polygon.coordinates]. *)
Definition hit (pt : Point) (p : Polygon) : bool :=
  match Js.object_or (coords_pdf p) (coordinates p) with
  | Some coords => isPointInPolygonPdf (x pt) (y pt) coords
  | None => false
  end.

(** [selectedPolygon === polygon.id ? null : polygon.id] *)
Definition newSelection (selected : option string) (p : Polygon) : option string :=
  match selected with
  | Some s => if String.eqb s (poly_id p) then None else Some (poly_id p)
  | None => Some (poly_id p)
  end.

(** The [for (const polygon of sheet.polygons)] loop of the click handler,
    which returns from the handler at the first polygon hit. The result is
    the next selection and the arguments [onPolygonSelect] was called
    with. *)
Fixpoint click_loop (pr : Props) (selected : option string) (pt : Point)
    (ps : list Polygon) : option string * list (option string) :=
  match ps with
  | [] => (None, [])
  | p :: ps' =>
      if hit pt p then
        let sel := newSelection selected p in
        (sel, if onPolygonSelect pr then [sel] else [])
      else click_loop pr selected pt ps'
  end.

Definition with_selectedPolygon (st : State) (sel : option string) : State :=
  mkState sel (hoveredPolygon st) (imageLoaded st) (viewDimensions st) (canvas st).

Definition handleCanvasClick (pr : Props) (st : State) (clientX clientY : Q)
    : State * list (option string) :=
  match canvas st with
  | None => (st, [])
  | Some rect =>
      let screenX := (clientX - left rect)%Q in
      let screenY := (clientY - top rect)%Q in
      let pdfPt := mapScreenToPdf (sheet pr) (viewDimensions st) screenX screenY in
      let '(sel, calls) :=
        click_loop pr (selectedPolygon st) pdfPt (sheet_polygons (sheet pr)) in
      (with_selectedPolygon st sel, calls)
  end.

(** [a === b] between a hook that holds an id or [null] and an id. *)
Definition is_id (a : option string) (b : string) : bool :=
  match a with
  | Some s => String.eqb s b
  | None => false
  end.

(** The property names an object literal inherits from [Object.prototype].
    Each is a function or an object, hence truthy, and none of them has a
    [fill], a [stroke] or a [label]. *)
Definition OBJECT_PROTOTYPE_MEMBERS : list string :=
  [ "constructor"; "toString"; "toLocaleString"; "valueOf"; "hasOwnProperty";
    "isPrototypeOf"; "propertyIsEnumerable"; "__proto__"; "__defineGetter__";
    "__defineSetter__"; "__lookupGetter__"; "__lookupSetter__" ].

(** What the constant [colors] of [drawCanvas] holds: an entry of
    [SURFACE_COLORS], or a member of the prototype. *)
Inductive ColorsValue :=
| Entry (c : Colors)
| PrototypeMember.

(** [SURFACE_COLORS[polygon.type] || SURFACE_COLORS.pervious]: the lookup
    finds the own keys of the literal first and then the inherited members;
    the fallback is taken when it finds neither. *)
Definition colors_of (p : Polygon) : ColorsValue :=
  match SURFACE_COLORS !! poly_type p with
  | Some c => Entry c
  | None =>
      if Js.includes OBJECT_PROTOTYPE_MEMBERS (poly_type p) then PrototypeMember
      else Entry SURFACE_COLORS_pervious
  end.

(** [colors.fill], [colors.stroke] and [colors.label]; [None] is
    [undefined]. *)
Definition fill_of (v : ColorsValue) : option string :=
  match v with Entry c => Some (fill c) | PrototypeMember => None end.

Definition stroke_of (v : ColorsValue) : option string :=
  match v with Entry c => Some (stroke c) | PrototypeMember => None end.

Definition label_of (v : ColorsValue) : option string :=
  match v with Entry c => Some (label c) | PrototypeMember => None end.

(** What [drawCanvas] assigns to the context for one polygon and the text it
    writes; [None] is [undefined], which the context ignores as a style. *)
Record Style := mkStyle {
  fillStyle : option string;
  strokeStyle : option string;
  lineWidth : Z;
  text : option string
}.

(** How the body of [sheet.polygons.forEach] ends for one polygon. *)
Inductive Drawing :=
| Skipped
| Painted (style : Style)
| DrawThrows.

(** The body of [sheet.polygons.forEach] in [drawCanvas], without the path:
    a polygon with no coordinates or fewer than three is skipped;
    [colors.fill.replace] throws when [colors.fill] is [undefined]. *)
Definition draw_polygon (pr : Props) (st : State) (p : Polygon) : Drawing :=
  let isHovered := is_id (hoveredPolygon st) (poly_id p) in
  let isSelected := is_id (selectedPolygon st) (poly_id p) in
  let isHighlighted := is_id (highlightedPolygonId pr) (poly_id p) in
  let colors := colors_of p in
  match Js.object_or (coords_pdf p) (coordinates p) with
  | None => Skipped
  | Some coords =>
      if (length coords <? 3)%nat then Skipped
      else
        let rest fillStyle :=
          Painted (mkStyle fillStyle
            (if isHighlighted then Some "rgb(255, 165, 0)" else stroke_of colors)
            (if isHighlighted then 4 else if isSelected then 3
             else if isHovered then 2 else 1)
            (label_of colors)) in
        if isHovered || isSelected || isHighlighted then
          match fill_of colors with
          | Some fill => rest (Some (Js.replace "0.3" "0.6" (Js.replace "0.4" "0.7" fill)))
          | None => DrawThrows
          end
        else rest (fill_of colors)
  end.

(** The review block of the detail card:
    [selectedData.review_needed && (... review_reasons.map ...)]. Mapping
    over an absent [review_reasons] throws. *)
Inductive ReviewBlock :=
| NoWarning
| Warning (reasons : list string)
| RenderThrows.

Definition detail_review (p : Polygon) : ReviewBlock :=
  if review_needed p then
    match review_reasons p with
    | Some reasons => Warning reasons
    | None => RenderThrows
    end
  else NoWarning.

(** *** The rest of the component *)

(** [canvas.style.cursor = ...] *)
Inductive Cursor := Pointer | DefaultCursor.

(** The loop of [handleCanvasMouseMove] and what follows it: the next
    hovered id and the cursor, when the handler sets it. *)
Fixpoint hover_loop (hovered : option string) (pt : Point) (ps : list Polygon)
    : option string * option Cursor :=
  match ps with
  | [] =>
      match hovered with
      | Some _ => (None, Some DefaultCursor)
      | None => (None, None)
      end
  | p :: ps' =>
      if hit pt p then
        if is_id hovered (poly_id p) then (hovered, None)
        else (Some (poly_id p), Some Pointer)
      else hover_loop hovered pt ps'
  end.

Definition with_hoveredPolygon (st : State) (hov : option string) : State :=
  mkState (selectedPolygon st) hov (imageLoaded st) (viewDimensions st) (canvas st).

Definition handleCanvasMouseMove (pr : Props) (st : State) (clientX clientY : Q)
    : State * option Cursor :=
  match canvas st with
  | None => (st, None)
  | Some rect =>
      let screenX := (clientX - left rect)%Q in
      let screenY := (clientY - top rect)%Q in
      let pdfPt := mapScreenToPdf (sheet pr) (viewDimensions st) screenX screenY in
      let '(hov, cursor) := hover_loop (hoveredPolygon st) pdfPt (sheet_polygons (sheet pr)) in
      (with_hoveredPolygon st hov, cursor)
  end.

(** [onMouseLeave] of the canvas. *)
Definition handleMouseLeave (st : State) : State := with_hoveredPolygon st None.

(** The body of the effect on [highlightedPolygonId]:
    [if (highlightedPolygonId) setSelectedPolygon(highlightedPolygonId)]. *)
Definition sync_highlight (pr : Props) (st : State) : State :=
  if Js.truthy_string (highlightedPolygonId pr)
  then with_selectedPolygon st (highlightedPolygonId pr)
  else st.

(** Whether two values of the dependency [highlightedPolygonId] are the
    same. *)
Definition same_id (a b : option string) : bool :=
  match a, b with
  | Some s, Some t => String.eqb s t
  | None, None => true
  | _, _ => false
  end.

(** The effect as React runs it, with its dependency array
    [[highlightedPolygonId]]: after the first render of the component, and
    after a later render when the dependency differs from its value at the
    render before. [before] is that value, [None] on the first render. *)
Definition highlight_effect (before : option (option string)) (pr : Props) (st : State)
    : State :=
  match before with
  | Some previous =>
      if same_id previous (highlightedPolygonId pr) then st else sync_highlight pr st
  | None => sync_highlight pr st
  end.

(** [getSelectedPolygonData]: nothing when the selection is falsy, else the
    first polygon of the sheet with the selected id, if there is one. *)
Definition getSelectedPolygonData (pr : Props) (st : State) : option Polygon :=
  if Js.truthy_string (selectedPolygon st) then
    List.find (fun p => is_id (selectedPolygon st) (poly_id p)) (sheet_polygons (sheet pr))
  else None.

(** The [Close] button of the detail card. *)
Definition close_details (st : State) : State := with_selectedPolygon st None.

End PlanViewer.

(** ** ResultsPanel.jsx *)

Module ResultsPanel.

Record State := mkState {
  selectedType : string;
  selectedSheet : option Z;
  showReviewOnly : bool;
  highlightedPolygonId : option string
}.

Definition sheetMatch (st : State) (p : Polygon) : bool :=
  match selectedSheet st with
  | None => true
  | Some s => Z.eqb (poly_sheet p) s
  end.

Definition filteredPolygons (st : State) (res : Results) : list Polygon :=
  List.filter (fun p =>
    let typeMatch := String.eqb (selectedType st) "all"
                     || String.eqb (poly_type p) (selectedType st) in
    let reviewMatch := negb (showReviewOnly st) || review_needed p in
    sheetMatch st p && typeMatch && reviewMatch) (polygons res).

Definition reviewNeededPolygons (st : State) (res : Results) : list Polygon :=
  List.filter (fun p => sheetMatch st p && review_needed p) (polygons res).

(** The line feed of the template literals. *)
Definition nl : string := String (Ascii.ascii_of_nat 10) EmptyString.

Definition csv_header : string :=
  "Polygon ID,Sheet,Surface Type,Area (sqft),Perimeter Type" +:+ nl.

Definition perimeterType (p : Polygon) : string :=
  if Js.includes ["concrete"; "asphalt"; "building"] (poly_type p)
  then "Impervious" else "Pervious".

(** What the browser is handed: the blob and the name of the download. *)
Record Download := mkDownload {
  blob_content : string;
  blob_type : string;
  download_name : string
}.

Section CsvExport.

(** How a template literal prints a number. *)
Variable number_to_string : Q -> string.

(** The line one turn of [polygons.forEach] appends to [csv]. *)
Definition csv_row (poly : Polygon) : string :=
  poly_id poly +:+ "," +:+ number_to_string (inject_Z (poly_sheet poly)) +:+ ","
  +:+ poly_type poly +:+ "," +:+ number_to_string (area_sqft poly) +:+ ","
  +:+ perimeterType poly +:+ nl.

(** [downloadCSV] is a closure of the component: the hooks are in its
    scope, the export reads [polygons] and [filename] of the result. *)
Definition downloadCSV (st : State) (res : Results) : Download :=
  let csv := fold_left (fun csv poly => csv +:+ csv_row poly) (polygons res) csv_header in
  mkDownload csv "text/csv" (Js.replace ".pdf" "" (filename res) +:+ "_results.csv").

End CsvExport.

(** The lines of a text, one after the other. *)
Definition lines (rows : list string) : string := foldr String.append "" rows.

(** The reasons block of one polygon card:
    [poly.review_needed && poly.review_reasons && (...)]. *)
Definition card_reasons (p : Polygon) : option (list string) :=
  if review_needed p then review_reasons p else None.

(** The badge of one polygon card: [poly.review_needed && (...)]. *)
Definition card_badge (p : Polygon) : bool := review_needed p.

(** *** The rest of the component *)

(** [sheets?.find(s => s.sheet_number === selectedSheet)] *)
Definition currentSheet (st : State) (res : Results) : option Sheet :=
  match selectedSheet st with
  | Some n => List.find (fun s => Z.eqb (sheet_number s) n) (sheets res)
  | None => None
  end.

(** The effect on [sheets]: the first sheet is selected when no sheet is;
    [!selectedSheet] also holds for the number 0. *)
Definition auto_select_sheet (st : State) (res : Results) : State :=
  match sheets res with
  | s0 :: _ =>
      match selectedSheet st with
      | Some n =>
          if Z.eqb n 0
          then mkState (selectedType st) (Some (sheet_number s0)) (showReviewOnly st)
                 (highlightedPolygonId st)
          else st
      | None =>
          mkState (selectedType st) (Some (sheet_number s0)) (showReviewOnly st)
            (highlightedPolygonId st)
      end
  | [] => st
  end.

(** [handlePolygonCardClick], without the scrolling. *)
Definition handlePolygonCardClick (st : State) (poly : Polygon) : State :=
  let sel :=
    match selectedSheet st with
    | Some n => if Z.eqb n (poly_sheet poly) then Some n else Some (poly_sheet poly)
    | None => Some (poly_sheet poly)
    end in
  mkState (selectedType st) sel (showReviewOnly st) (Some (poly_id poly)).

(** [onClick] of a sheet tab. *)
Definition select_sheet_tab (st : State) (s : Sheet) : State :=
  mkState (selectedType st) (Some (sheet_number s)) (showReviewOnly st) None.

(** [onChange] of the type select and of the review checkbox. *)
Definition setSelectedType (st : State) (t : string) : State :=
  mkState t (selectedSheet st) (showReviewOnly st) (highlightedPolygonId st).

Definition setShowReviewOnly (st : State) (b : bool) : State :=
  mkState (selectedType st) (selectedSheet st) b (highlightedPolygonId st).

(** [onPolygonSelect={(id) => setHighlightedPolygonId(id)}] *)
Definition setHighlightedPolygonId (st : State) (id : option string) : State :=
  mkState (selectedType st) (selectedSheet st) (showReviewOnly st) id.

(** The review checkbox is rendered when
    [reviewNeededPolygons.length > 0]. *)
Definition review_filter_rendered (st : State) (res : Results) : bool :=
  (0 <? length (reviewNeededPolygons st res))%nat.

(** The props [PlanViewer] is rendered with, when [currentSheet] is there. *)
Definition viewer_props (st : State) (res : Results) : option PlanViewer.Props :=
  match currentSheet st res with
  | Some s => Some (PlanViewer.mkProps s (highlightedPolygonId st) true)
  | None => None
  end.

(** The dependency of the highlight effect of [PlanViewer] at this render,
    when the viewer is rendered. *)
Definition viewer_dep (st : State) (res : Results) : option (option string) :=
  match viewer_props st res with
  | Some pr => Some (PlanViewer.highlightedPolygonId pr)
  | None => None
  end.

End ResultsPanel.

(** ** Legend.jsx *)

Module Legend.

Record Item := mkItem {
  type : string;
  color : string;
  label : string;
  shortLabel : string
}.

Definition LEGEND_ITEMS : list Item :=
  [ mkItem "building" "rgb(200, 0, 0)" "Building Footprint" "Bldg";
    mkItem "concrete" "rgb(128, 128, 128)" "Concrete Paving" "Conc";
    mkItem "asphalt" "rgb(50, 50, 50)" "Asphalt Paving" "Asph";
    mkItem "pervious" "rgb(0, 200, 0)" "Pervious Surface" "Perv" ].

(** [item.color.replace('rgb', 'rgba').replace(')', ', 0.4)')] *)
Definition backgroundColor (item : Item) : string :=
  Js.replace ")" ", 0.4)" (Js.replace "rgb" "rgba" (color item)).

Definition border (item : Item) : string := "2px solid " +:+ color item.

End Legend.

(** ** The quality analyzer of the back end *)

Module QualityAnalyzer.

(** The measurements of one polygon the rules read. *)
Record Measured := mkMeasured {
  m_id : string;
  m_sheet : Z;
  m_type : string;
  m_area_sqft : Q;
  m_confidence : Q;
  m_compactness : Q;
  m_vertex_count : Z;
  m_coords : list Coord
}.

(** The statistics of the areas of one sheet. *)
Record SheetStats := mkSheetStats {
  sheet_mean : Q;
  sheet_stdev : Q
}.

(** Modelled from the spec: the rule table of the quality analyzer (§4.6),
    which is part of the Python back end and is not among the sources. Each
    rule is evaluated on its own and every matching reason is collected;
    the statistical-outlier rule is skipped on a sheet of fewer than ten
    polygons. *)
Definition review_rules (count : nat) (stats : SheetStats) (m : Measured)
    : list (bool * string) :=
  [ (Js.lt (m_area_sqft m) 100, "very small area");
    (Js.gt (m_area_sqft m) 50000, "very large area");
    (Js.lt (m_compactness m) (15 # 100), "irregular shape");
    ((50 <? m_vertex_count m)%Z, "complex polygon");
    ((10 <=? count)%nat
     && Js.gt (Qabs (m_area_sqft m - sheet_mean stats)) (3 * sheet_stdev stats),
     "statistical outlier") ].

(** Modelled from the spec: the reasons of one polygon are those of the
    rules that match, in the order of the table. *)
Definition reasons_of (count : nat) (stats : SheetStats) (m : Measured) : list string :=
  List.map snd (List.filter fst (review_rules count stats m)).

(** Modelled from the spec: the analyzer attaches the reasons and sets
    [review_needed] when there is one (§3, §4.6). *)
Definition analyze (count : nat) (stats : SheetStats) (m : Measured) : Polygon :=
  let reasons := reasons_of count stats m in
  mkPolygon (m_id m) (m_sheet m) (m_type m) (m_area_sqft m) (m_confidence m)
    (Some (m_coords m)) None
    (match reasons with [] => false | _ :: _ => true end)
    (Some reasons).

(** Modelled from the spec: the polygons of one sheet of a job result. *)
Definition analyze_sheet (stats : SheetStats) (ms : list Measured) : list Polygon :=
  List.map (analyze (length ms) stats) ms.

End QualityAnalyzer.

(** ** FileUpload.jsx *)

(** A [File] of the browser. *)
Record File := mkFile {
  file_name : string;
  file_type : string;
  file_size : Z
}.

Module FileUpload.

Record State := mkState {
  dragActive : bool;
  selectedFile : option File
}.

Definition initial : State := mkState false None.

(** What a handler does besides updating the hooks. *)
Inductive Effect :=
| Alert (message : string)
| OnUpload (file : File)
| OpenFileDialog.

Definition handleDrag (st : State) (type : string) : State * list Effect :=
  if String.eqb type "dragenter" || String.eqb type "dragover" then
    (mkState true (selectedFile st), [])
  else if String.eqb type "dragleave" then
    (mkState false (selectedFile st), [])
  else (st, []).

Definition handleFile (st : State) (file : File) : State * list Effect :=
  if negb (String.eqb (file_type file) "application/pdf") then
    (st, [Alert "Please upload a PDF file"])
  else (mkState (dragActive st) (Some file), []).

(** [files && files[0]]: the first file of the list, when there is one. *)
Definition handleDrop (st : State) (files : list File) : State * list Effect :=
  let st := mkState false (selectedFile st) in
  match files with
  | file :: _ => handleFile st file
  | [] => (st, [])
  end.

Definition handleChange (st : State) (files : list File) : State * list Effect :=
  match files with
  | file :: _ => handleFile st file
  | [] => (st, [])
  end.

Definition handleUpload (st : State) : State * list Effect :=
  match selectedFile st with
  | Some file => (st, [OnUpload file])
  | None => (st, [])
  end.

Definition handleClick (st : State) : State * list Effect :=
  (st, [OpenFileDialog]).

(** The [Process PDF] button is rendered when
    [selectedFile && !loading]. *)
Definition upload_button (st : State) (loading : bool) : bool :=
  match selectedFile st with
  | Some _ => negb loading
  | None => false
  end.

End FileUpload.

(** ** api.js *)

Module Api.

Definition API_BASE_URL : string := "http://localhost:8000".

(** The requests the front end sends through axios. *)
Inductive Request :=
| Post (url : string) (file : File)
| Get (url : string).

(** The body of the answer to [/api/process/start]: the job identifier and
    whatever else the body holds. *)
Record StartData := mkStartData {
  job_id : string;
  start_extra : list (string * string)
}.

(** The body of the answer to [/api/process/status/<job>], with the fields
    the poll handler reads; a field may be absent. *)
Record StatusData := mkStatusData {
  status : option string;
  current_sheet : option Q;
  total_sheets : option Q;
  result : option Results;
  error : option string
}.

(** An axios response. *)
Record Response (A : Type) := mkResponse { data : A }.
Arguments mkResponse {A} _.
Arguments data {A} _.

(** An async function of the module: the request it awaits and what it
    returns from the response. *)
Record Call (A : Type) := mkCall {
  request : Request;
  returns : Response A -> A
}.
Arguments mkCall {A} _ _.
Arguments request {A} _.
Arguments returns {A} _ _.

Definition startProcessJob (file : File) : Call StartData :=
  mkCall (Post (API_BASE_URL +:+ "/api/process/start") file) data.

Definition getProcessStatus (jobId : string) : Call StatusData :=
  mkCall (Get (API_BASE_URL +:+ "/api/process/status/" +:+ jobId)) data.

End Api.

(** ** App.jsx *)

Module App.

Record Progress := mkProgress {
  currentSheet : Q;
  totalSheets : Q;
  status : string
}.

(** The hooks of [App]; [pollIntervalRef] holds the id of a timer or
    [null]. Timer ids are positive, so an id is truthy. *)
Record State := mkState {
  results : option Results;
  loading : bool;
  error : option string;
  progress : Progress;
  pollIntervalRef : option positive
}.

Definition initial : State :=
  mkState None false None (mkProgress 0 0 "idle") None.

(** The component in its environment: the timers [setInterval] has started
    and [clearInterval] has not stopped, each with the job its [poll]
    closure is bound to, the next timer id, and the requests sent so far,
    oldest first. *)
Record World := mkWorld {
  app : State;
  intervals : gmap positive string;
  next_handle : positive;
  requests : list Api.Request
}.

Definition initial_world : World := mkWorld initial ∅ 1%positive [].

Definition with_app (w : World) (st : State) : World :=
  mkWorld st (intervals w) (next_handle w) (requests w).

Definition send (w : World) (r : Api.Request) : World :=
  mkWorld (app w) (intervals w) (next_handle w) (requests w ++ [r]).

(** [if (pollIntervalRef.current) { clearInterval(pollIntervalRef.current);
    pollIntervalRef.current = null }] *)
Definition clear_poll_interval (w : World) : World :=
  match pollIntervalRef (app w) with
  | Some h =>
      mkWorld (mkState (results (app w)) (loading (app w)) (error (app w))
                 (progress (app w)) None)
        (delete h (intervals w)) (next_handle w) (requests w)
  | None => w
  end.

Definition setResults (r : option Results) (w : World) : World :=
  with_app w (mkState r (loading (app w)) (error (app w)) (progress (app w))
                (pollIntervalRef (app w))).

Definition setLoading (b : bool) (w : World) : World :=
  with_app w (mkState (results (app w)) b (error (app w)) (progress (app w))
                (pollIntervalRef (app w))).

Definition setError (e : option string) (w : World) : World :=
  with_app w (mkState (results (app w)) (loading (app w)) e (progress (app w))
                (pollIntervalRef (app w))).

Definition setProgress (f : Progress -> Progress) (w : World) : World :=
  with_app w (mkState (results (app w)) (loading (app w)) (error (app w))
                (f (progress (app w))) (pollIntervalRef (app w))).

(** [pollIntervalRef.current = setInterval(poll, 3000)] for the [poll] of
    job [jobId]. *)
Definition set_poll_interval (jobId : string) (w : World) : World :=
  let h := next_handle w in
  mkWorld (mkState (results (app w)) (loading (app w)) (error (app w))
             (progress (app w)) (Some h))
    (<[h := jobId]> (intervals w)) (Pos.succ h) (requests w).

(** How the awaited [getProcessStatus] ends. *)
Inductive Outcome :=
| Resolved (st : Api.StatusData)
| Rejected.

(** [poll] up to its [await]: the status request goes out. *)
Definition poll_call (jobId : string) (w : World) : World :=
  send w (Api.request (Api.getProcessStatus jobId)).

(** [poll] from its [await] on. *)
Definition poll_resume (o : Outcome) (w : World) : World :=
  match o with
  | Resolved st =>
      let w :=
        setProgress (fun _ =>
          mkProgress (Js.number_or (Api.current_sheet st) 0)
                     (Js.number_or (Api.total_sheets st) 0)
                     (Js.string_or (Api.status st) "unknown")) w in
      match Api.status st with
      | Some s =>
          if String.eqb s "completed" then
            let w := clear_poll_interval w in
            let w :=
              match Api.result st with
              | Some r => setResults (Some r) w
              | None => w
              end in
            setLoading false w
          else if String.eqb s "error" then
            let w := clear_poll_interval w in
            let w := setError (Some (Js.string_or (Api.error st) "Processing failed")) w in
            setLoading false w
          else w
      | None => w
      end
  | Rejected =>
      let w := clear_poll_interval w in
      let w := setError (Some "Lost connection to processing job") w in
      setLoading false w
  end.

(** [handleFileUpload] up to its [await]: the hooks are reset and the start
    request goes out. *)
Definition handleFileUpload_call (file : File) (w : World) : World :=
  let w := setLoading true w in
  let w := setError None w in
  let w := setResults None w in
  let w := setProgress (fun _ => mkProgress 0 0 "starting") w in
  send w (Api.request (Api.startProcessJob file)).

(** [handleFileUpload] after [startProcessJob] has resolved: only [job_id]
    is taken from what it returned; the timer is started and the first
    poll fired. *)
Definition handleFileUpload_resume (file : File) (resp : Api.Response Api.StartData)
    (w : World) : World :=
  let jobId := Api.job_id (Api.returns (Api.startProcessJob file) resp) in
  let w := setProgress (fun prev =>
             mkProgress (currentSheet prev) (totalSheets prev) "running") w in
  let w := set_poll_interval jobId w in
  poll_call jobId w.

(** [handleFileUpload] after [startProcessJob] has thrown [err]. *)
Definition handleFileUpload_catch (message : option string) (w : World) : World :=
  let w := setError (Some (Js.string_or message "Failed to start processing job")) w in
  setLoading false w.

(** What happens to the component after it has been rendered: a call of
    [handleFileUpload], the end of an awaited request, or a timer firing. *)
Inductive Event :=
| Submit (file : File)
| StartResolved (file : File) (resp : Api.Response Api.StartData)
| StartRejected (message : option string)
| Tick (h : positive)
| StatusSettled (jobId : string) (o : Outcome).

Definition step (w : World) (e : Event) : World :=
  match e with
  | Submit file => handleFileUpload_call file w
  | StartResolved file resp => handleFileUpload_resume file resp w
  | StartRejected message => handleFileUpload_catch message w
  | Tick h =>
      match intervals w !! h with
      | Some jobId => poll_call jobId w
      | None => w
      end
  | StatusSettled _ o => poll_resume o w
  end.

Definition run (w : World) (es : list Event) : World := fold_left step es w.

(** What [App] renders below the upload zone. *)
Record View := mkView {
  view_loading : bool;
  view_sheets : option (Q * Q);
  view_error : option string;
  view_results : option Results
}.

Definition render (st : State) : View :=
  mkView (loading st)
    (if loading st && Js.gt (totalSheets (progress st)) 0
     then Some (currentSheet (progress st), totalSheets (progress st)) else None)
    (if Js.truthy_string (error st) then error st else None)
    (if loading st then None else results st).

(** The status polls for one job among the requests sent. *)
Definition is_poll_of (jobId : string) (r : Api.Request) : bool :=
  match r, Api.request (Api.getProcessStatus jobId) with
  | Api.Get url, Api.Get url' => String.eqb url url'
  | _, _ => false
  end.

Definition polls_of (jobId : string) (rs : list Api.Request) : list Api.Request :=
  List.filter (is_poll_of jobId) rs.

(** An event that starts the timer of a job. *)
Definition starts_job (e : Event) : option string :=
  match e with
  | StartResolved file resp => Some (Api.job_id (Api.returns (Api.startProcessJob file) resp))
  | _ => None
  end.

(** No running timer polls job [jobId]. *)
Definition no_timer (jobId : string) (w : World) : Prop :=
  forall h, intervals w !! h <> Some jobId.

(** Every running timer that polls job [jobId] is the one whose id
    [pollIntervalRef] holds. *)
Definition timer_in_ref (jobId : string) (w : World) : Prop :=
  forall h, intervals w !! h = Some jobId -> pollIntervalRef (app w) = Some h.

(** A snapshot with one of the two final statuses. *)
Definition terminal (st : Api.StatusData) : Prop :=
  Api.status st = Some "completed" \/ Api.status st = Some "error".

(** The progress a snapshot is shown as. *)
Definition progress_of (st : Api.StatusData) : Progress :=
  mkProgress (Js.number_or (Api.current_sheet st) 0)
             (Js.number_or (Api.total_sheets st) 0)
             (Js.string_or (Api.status st) "unknown").

(** The job ids the start responses of a run returned. *)
Definition started_jobs (es : list Event) : list string := omap starts_job es.

(** What every world reached from the first render satisfies. *)
Record sound (w : World) : Prop := mkSound {
  sound_loading : loading (app w) = true -> results (app w) = None /\ error (app w) = None;
  sound_error : forall s, error (app w) = Some s -> s <> "";
  sound_ref : forall h, pollIntervalRef (app w) = Some h -> is_Some (intervals w !! h);
  sound_fresh : forall h j, intervals w !! h = Some j -> (h < next_handle w)%positive
}.

(** Every timer and every status request is for one of the jobs [jobs]. *)
Definition polls_only (jobs : list string) (w : World) : Prop :=
  (forall h j, intervals w !! h = Some j -> j ∈ jobs)
  /\ (forall url, Api.Get url ∈ requests w ->
        exists j, j ∈ jobs /\ Api.Get url = Api.request (Api.getProcessStatus j)).

End App.

(** ** The page: FileUpload inside App *)

Module Page.

Record State := mkState {
  upload : FileUpload.State;
  world : App.World
}.

Definition initial : State := mkState FileUpload.initial App.initial_world.

(** What the user and the environment do to the page. [onUpload] of
    [FileUpload] is [handleFileUpload] of [App]; the [Process PDF] button
    can be clicked when it is rendered. *)
Inductive Event :=
| Drag (type : string)
| Drop (files : list File)
| Change (files : list File)
| ClickZone
| ClickProcess
| StartResolved (file : File) (resp : Api.Response Api.StartData)
| StartRejected (message : option string)
| Tick (h : positive)
| StatusSettled (jobId : string) (o : App.Outcome).

(** The calls of [onUpload] among the effects of a handler reach [App]. *)
Fixpoint deliver (effects : list FileUpload.Effect) (w : App.World) : App.World :=
  match effects with
  | [] => w
  | FileUpload.OnUpload file :: effects' => deliver effects' (App.step w (App.Submit file))
  | _ :: effects' => deliver effects' w
  end.

Definition handled (st : State) (r : FileUpload.State * list FileUpload.Effect) : State :=
  mkState (fst r) (deliver (snd r) (world st)).

Definition step (st : State) (e : Event) : State :=
  match e with
  | Drag type => handled st (FileUpload.handleDrag (upload st) type)
  | Drop files => handled st (FileUpload.handleDrop (upload st) files)
  | Change files => handled st (FileUpload.handleChange (upload st) files)
  | ClickZone => handled st (FileUpload.handleClick (upload st))
  | ClickProcess =>
      if FileUpload.upload_button (upload st) (App.loading (App.app (world st)))
      then handled st (FileUpload.handleUpload (upload st))
      else st
  | StartResolved file resp =>
      mkState (upload st) (App.step (world st) (App.StartResolved file resp))
  | StartRejected message =>
      mkState (upload st) (App.step (world st) (App.StartRejected message))
  | Tick h => mkState (upload st) (App.step (world st) (App.Tick h))
  | StatusSettled jobId o =>
      mkState (upload st) (App.step (world st) (App.StatusSettled jobId o))
  end.

Definition run (st : State) (es : list Event) : State := fold_left step es st.

(** The files sent to [/api/process/start]. *)
Definition started_files (rs : list Api.Request) : list File :=
  omap (fun r => match r with Api.Post _ file => Some file | Api.Get _ => None end) rs.


Definition is_pdf (f : File) : Prop := file_type f = "application/pdf".

(** Whatever is selected, and whatever has been sent to the start
    endpoint, is a PDF. *)
Definition only_pdf (st : State) : Prop :=
  (forall f, FileUpload.selectedFile (upload st) = Some f -> is_pdf f)
  /\ Forall is_pdf (started_files (App.requests (world st))).

(** The files sent to the start endpoint so far. *)
Definition sent (st : State) : list File := started_files (App.requests (world st)).

(** The clicks on [Process PDF] in a run. *)
Definition clicks (es : list Event) : nat :=
  length (List.filter (fun e => match e with ClickProcess => true | _ => false end) es).

End Page.

(** ** Shapes and names to state properties with *)

Module Shapes.
Local Open Scope Q_scope.

(** The axis-aligned rectangle with corners [(x0, y0)] and [(x1, y1)], as
    the back end lists its vertices. *)
Definition rectangle (x0 y0 x1 y1 : Q) : list Coord :=
  [(x0, y0); (x1, y0); (x1, y1); (x0, y1)].

(** Whether a dot occurs in a file name. *)
Fixpoint has_dot (s : string) : bool :=
  match s with
  | EmptyString => false
  | String c s' => if Ascii.eqb c (Ascii.ascii_of_nat 46) then true else has_dot s'
  end.

(** The result [res] under another file name. *)
Definition with_filename (res : Results) (name : string) : Results :=
  mkResults name (sheets_processed res) (polygons res) (sheets res).

End Shapes.

(** ** Sample data *)

Module Fixtures.
Import PlanViewer.
Local Open Scope Q_scope.

(** Two overlapping squares on a letter page shown at twice its size. *)
Definition square (id : string) (type : string) (x0 y0 x1 y1 : Q) : Polygon :=
  mkPolygon id 1 type 2500 (9 # 10)
    (Some [(x0, y0); (x1, y0); (x1, y1); (x0, y1)]) None false (Some []).

Definition example_sheet : Sheet :=
  mkSheet 1 (Some 612) (Some 792) 2
    [ square "S1_P001" "building" 100 100 300 300;
      square "S1_P002" "concrete" 200 200 400 400 ].

Definition example_props : Props := mkProps example_sheet None true.

Definition example_state (selected : option string) : State :=
  mkState selected None true (mkDimensions 1224 1584) (Some (mkRect 10 20)).

(** A printer that covers the numbers of the sample polygons. *)
Definition number_to_string (q : Q) : string :=
  if Qeq_bool q 1 then "1" else if Qeq_bool q 2500 then "2500" else "0".

Definition plan_pdf : File := mkFile "plan.pdf" "application/pdf" 1048576.

Definition photo_png : File := mkFile "photo.png" "image/png" 2048.

(** A measured polygon for the rules of the quality analyzer. *)
Definition measured (area compactness : Q) (vertices : Z) : QualityAnalyzer.Measured :=
  QualityAnalyzer.mkMeasured "S1_P001" 1 "concrete" area (8 # 10) compactness vertices
    [(0, 0); (10, 0); (10, 10); (0, 10)].

Definition example_results : Results :=
  mkResults "plan.pdf" 1 (sheet_polygons example_sheet) [example_sheet].

(** The answers of the back end to one job. *)
Definition start_response : Api.Response Api.StartData :=
  Api.mkResponse (Api.mkStartData "job-1" [("status", "queued")]).

Definition second_response : Api.Response Api.StartData :=
  Api.mkResponse (Api.mkStartData "job-2" []).

Definition third_response : Api.Response Api.StartData :=
  Api.mkResponse (Api.mkStartData "job-3" []).

Definition running_snapshot : Api.StatusData :=
  Api.mkStatusData (Some "running") (Some 1) (Some 3) None None.

Definition completed_snapshot : Api.StatusData :=
  Api.mkStatusData (Some "completed") (Some 3) (Some 3) (Some example_results) None.

Definition error_snapshot : Api.StatusData :=
  Api.mkStatusData (Some "error") (Some 1) (Some 3) None (Some "Could not read page 2").

(** A session on the page in which every answer belongs to a request sent
    before it. The first job is polled twice before its first answer is
    back; the second answer comes late, after the user has submitted again,
    and brings the button back while that submission is pending, so the user
    submits once more and two jobs start one after the other. *)
Definition resubmitted_session : list Page.Event :=
  [ Page.Change [plan_pdf];
    Page.ClickProcess;
    Page.StartResolved plan_pdf start_response;
    Page.Tick 1;
    Page.StatusSettled "job-1" (App.Resolved completed_snapshot);
    Page.ClickProcess ].

Definition late_answer_session : list Page.Event :=
  (resubmitted_session
   ++ [ Page.StatusSettled "job-1" (App.Resolved completed_snapshot) ])%list.

Definition overlapping_session : list Page.Event :=
  (late_answer_session
   ++ [ Page.ClickProcess;
        Page.StartResolved plan_pdf second_response;
        Page.StartResolved plan_pdf third_response ])%list.

End Fixtures.

(** * Properties *)

(** ** JavaScript helpers *)

Module JsFacts.

Lemma lt_spec (a b : Q) : Js.lt a b = true <-> (a < b)%Q.
Proof.
  unfold Js.lt. rewrite negb_true_iff. split.
  - intros H. apply Qnot_le_lt. intros Hle.
    apply Qle_bool_iff in Hle. congruence.
  - intros H. destruct (Qle_bool b a) eqn:E; [|reflexivity].
    apply Qle_bool_iff in E. exfalso. exact (Qlt_not_le _ _ H E).
Qed.

Lemma includes_spec (arr : list string) (s : string) :
  Js.includes arr s = true <-> s ∈ arr.
Proof.
  induction arr as [|a arr IH]; simpl.
  - split; [discriminate | intros H; inversion H].
  - destruct (String.eqb a s) eqn:E.
    + apply String.eqb_eq in E. subst. split; [intros _; left | reflexivity].
    + apply String.eqb_neq in E. rewrite IH. split.
      * intros H. right. exact H.
      * intros H. inversion H; subst; [congruence | assumption].
Qed.

Lemma Qeq_bool_false (a b : Q) : Qeq_bool a b = false <-> ~ (a == b)%Q.
Proof.
  split.
  - intros H E. apply Qeq_bool_iff in E. congruence.
  - intros H. destruct (Qeq_bool a b) eqn:E; [|reflexivity].
    apply Qeq_bool_iff in E. contradiction.
Qed.

(** [a || d] with a non-zero default is never zero. *)
Lemma number_or_nonzero (n : option Q) (d : Q) :
  ~ (d == 0)%Q -> ~ (Js.number_or n d == 0)%Q.
Proof.
  intros Hd. unfold Js.number_or. destruct n as [v|]; [|exact Hd].
  destruct (Qeq_bool v 0) eqn:E; [exact Hd|].
  now apply Qeq_bool_false.
Qed.

(** [a || d] with a non-empty default is never the empty string. *)
Lemma string_or_nonempty (s : option string) (d : string) :
  d <> "" -> Js.string_or s d <> "".
Proof.
  intros Hd. unfold Js.string_or. destruct s as [v|]; [|exact Hd].
  destruct (String.eqb v "") eqn:E; [exact Hd|]. now apply String.eqb_neq.
Qed.

End JsFacts.

(** ** The coordinate maps and the click handler of PlanViewer *)

Module PlanViewerFacts.
Import PlanViewer Fixtures.
Local Open Scope Q_scope.

Lemma pdfWidth_nonzero (s : Sheet) : ~ (pdfWidth s == 0)%Q.
Proof. apply JsFacts.number_or_nonzero. discriminate. Qed.

Lemma pdfHeight_nonzero (s : Sheet) : ~ (pdfHeight s == 0)%Q.
Proof. apply JsFacts.number_or_nonzero. discriminate. Qed.

Lemma view_guard_false (vw vh : Q) :
  ~ (vw == 0)%Q -> ~ (vh == 0)%Q -> Qeq_bool vw 0 || Qeq_bool vh 0 = false.
Proof.
  intros Hw Hh. apply orb_false_iff.
  split; now apply JsFacts.Qeq_bool_false.
Qed.

Lemma view_guard_true (vw vh : Q) :
  (vw == 0)%Q \/ (vh == 0)%Q -> Qeq_bool vw 0 || Qeq_bool vh 0 = true.
Proof.
  intros [H|H]; apply Qeq_bool_iff in H; rewrite H; [reflexivity|apply orb_true_r].
Qed.

(** On a view of non-zero size, mapping a PDF point to the screen and back
    gives the point again; the page size needs no assumption, since the
    defaults keep it away from zero. *)
Lemma roundtrip_nonzero (s : Sheet) (view : Dimensions) (pdfX pdfY : Q) :
  ~ (width view == 0)%Q -> ~ (height view == 0)%Q ->
  let scr := mapPdfToScreen s pdfX pdfY (width view) (height view) in
  let back := mapScreenToPdf s view (x scr) (y scr) in
  (x back == pdfX)%Q /\ (y back == pdfY)%Q.
Proof.
  intros Hw Hh. unfold mapPdfToScreen, mapScreenToPdf.
  rewrite (view_guard_false _ _ Hw Hh). simpl.
  pose proof (pdfWidth_nonzero s) as Hpw.
  pose proof (pdfHeight_nonzero s) as Hph.
  split; field; auto.
Qed.

(** C8: [mapScreenToPdf] undoes [mapPdfToScreen] on every PDF point when
    the view and the page have positive width and height, in exact
    rational arithmetic and with the flip of the Y axis; when the width or
    the height of the view is zero, both maps return the point (0, 0). *)
Theorem coordinate_maps_inverse (s : Sheet) (view : Dimensions) (pdfX pdfY : Q) :
  ((0 < width view)%Q -> (0 < height view)%Q ->
   (0 < pdfWidth s)%Q -> (0 < pdfHeight s)%Q ->
   let scr := mapPdfToScreen s pdfX pdfY (width view) (height view) in
   let back := mapScreenToPdf s view (x scr) (y scr) in
   (x back == pdfX)%Q /\ (y back == pdfY)%Q)
  /\
  ((width view == 0)%Q \/ (height view == 0)%Q ->
   mapPdfToScreen s pdfX pdfY (width view) (height view) = mkPoint 0 0
   /\ mapScreenToPdf s view pdfX pdfY = mkPoint 0 0).
Proof.
  split.
  - intros Hw Hh _ _. apply roundtrip_nonzero.
    + intros E. rewrite E in Hw. discriminate.
    + intros E. rewrite E in Hh. discriminate.
  - intros H. unfold mapPdfToScreen, mapScreenToPdf.
    now rewrite (view_guard_true _ _ H).
Qed.

(** A letter page shown 1224 by 1584, and the same page in a view that
    has no width yet. *)
Lemma coordinate_maps_inverse_witness :
  (let s := mkSheet 1 (Some 612) (Some 792) 0 [] in
   let view := mkDimensions 1224 1584 in
   let scr := mapPdfToScreen s 100 200 (width view) (height view) in
   let back := mapScreenToPdf s view (x scr) (y scr) in
   (x back == 100)%Q /\ (y back == 200)%Q)
  /\
  (let s := mkSheet 1 (Some 612) (Some 792) 0 [] in
   let view := mkDimensions 0 1584 in
   mapPdfToScreen s 100 200 (width view) (height view) = mkPoint 0 0
   /\ mapScreenToPdf s view 100 200 = mkPoint 0 0).
Proof.
  split.
  - apply (proj1 (coordinate_maps_inverse (mkSheet 1 (Some 612) (Some 792) 0 [])
                    (mkDimensions 1224 1584) 100 200)); reflexivity.
  - apply (proj2 (coordinate_maps_inverse (mkSheet 1 (Some 612) (Some 792) 0 [])
                    (mkDimensions 0 1584) 100 200)).
    left. reflexivity.
Defined.

(** The loop of the click handler stops at the first polygon hit. *)
Lemma click_loop_first_hit (pr : Props) (selected : option string) (pt : Point)
    (ps : list Polygon) :
  Exists (fun q => hit pt q = true) ps ->
  exists before p after,
    ps = (before ++ p :: after)%list
    /\ Forall (fun q => hit pt q = false) before
    /\ hit pt p = true
    /\ click_loop pr selected pt ps
       = (newSelection selected p,
          if onPolygonSelect pr then [newSelection selected p] else []).
Proof.
  induction ps as [|q ps IH]; intros Hex.
  - inversion Hex.
  - destruct (hit pt q) eqn:Hq.
    + exists [], q, ps. simpl. rewrite Hq. repeat split; constructor.
    + assert (Hex' : Exists (fun q => hit pt q = true) ps).
      { inversion Hex; subst; [congruence | assumption]. }
      destruct (IH Hex') as (before & p & after & -> & Hb & Hp & Hloop).
      exists (q :: before), p, after. simpl. rewrite Hq.
      repeat split; [constructor; assumption | assumption | assumption].
Qed.

Lemma click_loop_no_hit (pr : Props) (selected : option string) (pt : Point)
    (ps : list Polygon) :
  Forall (fun q => hit pt q = false) ps ->
  click_loop pr selected pt ps = (None, []).
Proof.
  induction 1 as [|q ps Hq _ IH]; simpl; [reflexivity|].
  now rewrite Hq.
Qed.

Lemma newSelection_toggle (selected : option string) (p : Polygon) :
  newSelection selected p
  = if is_id selected (poly_id p) then None else Some (poly_id p).
Proof. destruct selected; reflexivity. Qed.

(** C10: a click on the mounted canvas maps the pointer to PDF space; when
    the point is inside some polygon of the sheet by the ray-casting test,
    the first such polygon in the order of [sheet.polygons] becomes the
    selection, or the selection is cleared when that polygon was the
    selected one; when the point is inside no polygon, the selection is
    cleared. *)
Theorem handleCanvasClick_toggles_first_hit (pr : Props) (st : State) (rect : Rect)
    (clientX clientY : Q) :
  canvas st = Some rect ->
  let pt := mapScreenToPdf (sheet pr) (viewDimensions st)
              (clientX - left rect) (clientY - top rect) in
  let st' := fst (handleCanvasClick pr st clientX clientY) in
  let calls := snd (handleCanvasClick pr st clientX clientY) in
  (Exists (fun q => hit pt q = true) (sheet_polygons (sheet pr)) ->
   exists before p after,
     sheet_polygons (sheet pr) = (before ++ p :: after)%list
     /\ Forall (fun q => hit pt q = false) before
     /\ hit pt p = true
     /\ selectedPolygon st'
        = (if is_id (selectedPolygon st) (poly_id p) then None else Some (poly_id p))
     /\ calls = (if onPolygonSelect pr then [selectedPolygon st'] else []))
  /\
  (Forall (fun q => hit pt q = false) (sheet_polygons (sheet pr)) ->
   selectedPolygon st' = None /\ calls = [])
  /\
  hoveredPolygon st' = hoveredPolygon st
  /\ viewDimensions st' = viewDimensions st
  /\ canvas st' = canvas st.
Proof.
  intros Hc. unfold handleCanvasClick. rewrite Hc. cbv zeta.
  set (pt := mapScreenToPdf _ _ _ _).
  destruct (click_loop pr (selectedPolygon st) pt (sheet_polygons (sheet pr)))
    as [sel cs] eqn:Hloop.
  simpl. split; [|split; [|auto]].
  - intros Hex.
    destruct (click_loop_first_hit pr (selectedPolygon st) pt _ Hex)
      as (before & p & after & Hps & Hb & Hp & Hl).
    exists before, p, after. rewrite Hl in Hloop. inversion Hloop; subst sel cs.
    rewrite <- newSelection_toggle. auto.
  - intros Hall. rewrite (click_loop_no_hit _ _ _ _ Hall) in Hloop.
    now inversion Hloop.
Qed.

Example ray_casting_inside :
  isPointInPolygonPdf 5 5 [(0, 0); (10, 0); (10, 10); (0, 10)] = true.
Proof. reflexivity. Qed.

Example ray_casting_outside :
  isPointInPolygonPdf 15 5 [(0, 0); (10, 0); (10, 10); (0, 10)] = false.
Proof. reflexivity. Qed.

Example ray_casting_no_vertices : isPointInPolygonPdf 5 5 [] = false.
Proof. reflexivity. Qed.

(** A click at PDF point (250, 250), inside both squares, takes the first. *)
Example click_selects_first :
  handleCanvasClick example_props (example_state None) 510 1104
  = (example_state (Some "S1_P001"), [Some "S1_P001"]).
Proof. reflexivity. Qed.

Example click_deselects :
  handleCanvasClick example_props (example_state (Some "S1_P001")) 510 1104
  = (example_state None, [None]).
Proof. reflexivity. Qed.

Example click_outside_clears :
  handleCanvasClick example_props (example_state (Some "S1_P002")) 20 30
  = (example_state None, []).
Proof. reflexivity. Qed.

Lemma handleCanvasClick_toggles_first_hit_witness :
  let pr := example_props in
  let st := example_state None in
  let rect := mkRect 10 20 in
  let pt := mapScreenToPdf (sheet pr) (viewDimensions st)
              (510 - left rect) (1104 - top rect) in
  let st' := fst (handleCanvasClick pr st 510 1104) in
  let calls := snd (handleCanvasClick pr st 510 1104) in
  (Exists (fun q => hit pt q = true) (sheet_polygons (sheet pr)) ->
   exists before p after,
     sheet_polygons (sheet pr) = (before ++ p :: after)%list
     /\ Forall (fun q => hit pt q = false) before
     /\ hit pt p = true
     /\ selectedPolygon st'
        = (if is_id (selectedPolygon st) (poly_id p) then None else Some (poly_id p))
     /\ calls = (if onPolygonSelect pr then [selectedPolygon st'] else []))
  /\
  (Forall (fun q => hit pt q = false) (sheet_polygons (sheet pr)) ->
   selectedPolygon st' = None /\ calls = [])
  /\
  hoveredPolygon st' = hoveredPolygon st
  /\ viewDimensions st' = viewDimensions st
  /\ canvas st' = canvas st.
Proof.
  apply (handleCanvasClick_toggles_first_hit example_props (example_state None)
           (mkRect 10 20) 510 1104).
  reflexivity.
Defined.

End PlanViewerFacts.

(** ** Surface colours and the CSV export *)

Module ResultsPanelFacts.
Import ResultsPanel Fixtures.

Lemma append_assoc (a b c : string) : (a +:+ b) +:+ c = a +:+ (b +:+ c).
Proof.
  induction a as [|ch a IH]; [reflexivity|].
  change (String ch ((a +:+ b) +:+ c) = String ch (a +:+ (b +:+ c))).
  now rewrite IH.
Qed.

Lemma append_empty_r (a : string) : a +:+ "" = a.
Proof.
  induction a as [|ch a IH]; [reflexivity|].
  change (String ch (a +:+ "") = String ch a).
  now rewrite IH.
Qed.

(** The accumulation [csv += row] over the polygons is the header followed
    by the rows in order. *)
Lemma csv_fold (row : Polygon -> string) (ps : list Polygon) (acc : string) :
  fold_left (fun csv poly => csv +:+ row poly) ps acc = acc +:+ lines (List.map row ps).
Proof.
  revert acc. induction ps as [|p ps IH]; intros acc.
  - simpl. now rewrite append_empty_r.
  - cbn [fold_left List.map lines foldr]. rewrite IH. apply append_assoc.
Qed.

Lemma perimeterType_impervious (p : Polygon) :
  poly_type p ∈ ["concrete"; "asphalt"; "building"] -> perimeterType p = "Impervious".
Proof.
  intros H. unfold perimeterType.
  now rewrite (proj2 (JsFacts.includes_spec _ _) H).
Qed.

Lemma perimeterType_pervious (p : Polygon) :
  poly_type p ∉ ["concrete"; "asphalt"; "building"] -> perimeterType p = "Pervious".
Proof.
  intros H. unfold perimeterType.
  destruct (Js.includes _ _) eqn:E; [|reflexivity].
  apply JsFacts.includes_spec in E. contradiction.
Qed.

Lemma unknown_type_lookup (t : string) :
  t ∉ ["building"; "concrete"; "asphalt"; "pervious"; "water"] ->
  PlanViewer.SURFACE_COLORS !! t = None.
Proof.
  intros H. repeat (apply not_elem_of_cons in H; destruct H as [? H]).
  unfold PlanViewer.SURFACE_COLORS.
  repeat (rewrite lookup_insert_ne by congruence).
  apply lookup_singleton_ne. congruence.
Qed.

(** C3: the CSV text of [downloadCSV] is the header line followed by one
    row for each polygon of the flat [polygons] list of the result, in the
    order of the list; the row of a polygon holds its id, sheet, type and
    area_sqft and a Perimeter Type that is Impervious exactly when the type
    is one of concrete, asphalt, building, and Pervious otherwise; the
    sheet, type and review filters of the panel do not enter the export. *)
Theorem downloadCSV_one_row_per_polygon (number_to_string : Q -> string)
    (st : State) (res : Results) :
  let rows := List.map (csv_row number_to_string) (polygons res) in
  blob_content (downloadCSV number_to_string st res) = csv_header +:+ lines rows
  /\ length rows = length (polygons res)
  /\ (forall (i : nat) (p : Polygon), polygons res !! i = Some p ->
        rows !! i
        = Some (poly_id p +:+ "," +:+ number_to_string (inject_Z (poly_sheet p)) +:+ ","
                +:+ poly_type p +:+ "," +:+ number_to_string (area_sqft p) +:+ ","
                +:+ perimeterType p +:+ nl))
  /\ (forall p : Polygon,
        (poly_type p ∈ ["concrete"; "asphalt"; "building"]
         -> perimeterType p = "Impervious")
        /\ (poly_type p ∉ ["concrete"; "asphalt"; "building"]
            -> perimeterType p = "Pervious"))
  /\ (forall st' : State,
        downloadCSV number_to_string st' res = downloadCSV number_to_string st res).
Proof.
  cbv zeta. repeat split.
  - unfold downloadCSV. simpl. apply csv_fold.
  - apply length_map.
  - intros i p Hi. rewrite list_lookup_fmap, Hi. reflexivity.
  - apply perimeterType_impervious.
  - apply perimeterType_pervious.
Qed.

Example csv_of_example :
  blob_content (downloadCSV number_to_string (mkState "asphalt" (Some 7%Z) true None)
                  example_results)
  = "Polygon ID,Sheet,Surface Type,Area (sqft),Perimeter Type" +:+ nl
    +:+ "S1_P001,1,building,2500,Impervious" +:+ nl
    +:+ "S1_P002,1,concrete,2500,Impervious" +:+ nl.
Proof. reflexivity. Qed.

Example csv_name_of_example :
  download_name (downloadCSV number_to_string (mkState "all" None false None)
                   example_results)
  = "plan_results.csv".
Proof. reflexivity. Qed.

Lemma downloadCSV_one_row_per_polygon_witness :
  blob_content (downloadCSV number_to_string (mkState "asphalt" (Some 7%Z) true None)
                  example_results)
  = csv_header +:+ lines (List.map (csv_row number_to_string) (polygons example_results))
  /\ List.map (csv_row number_to_string) (polygons example_results) !! 1%nat
     = Some ("S1_P002,1,concrete,2500,Impervious" +:+ nl).
Proof.
  destruct (downloadCSV_one_row_per_polygon number_to_string
              (mkState "asphalt" (Some 7%Z) true None) example_results)
    as (Htext & _ & Hrow & _).
  split; [exact Htext|].
  exact (Hrow 1%nat (square "S1_P002" "concrete" 200 200 400 400) eq_refl).
Defined.

(** Outside the five keys of the literal and the names it inherits, the
    fallback is taken: the polygon gets the colours of the pervious entry and
    [drawCanvas] treats it as it treats the same polygon with type
    pervious. *)
Lemma unlisted_types_are_pervious (pr : PlanViewer.Props) (st : PlanViewer.State)
    (p : Polygon) :
  poly_type p ∉ ["building"; "concrete"; "asphalt"; "pervious"; "water"] ->
  poly_type p ∉ PlanViewer.OBJECT_PROTOTYPE_MEMBERS ->
  PlanViewer.colors_of p = PlanViewer.Entry PlanViewer.SURFACE_COLORS_pervious
  /\ PlanViewer.draw_polygon pr st p
     = PlanViewer.draw_polygon pr st (with_type p "pervious").
Proof.
  intros H Hproto.
  assert (Hc : PlanViewer.colors_of p
               = PlanViewer.Entry PlanViewer.SURFACE_COLORS_pervious).
  { unfold PlanViewer.colors_of. rewrite (unknown_type_lookup _ H).
    destruct (Js.includes _ _) eqn:E; [|reflexivity].
    apply JsFacts.includes_spec in E. contradiction. }
  split; [exact Hc|].
  unfold PlanViewer.draw_polygon. rewrite Hc. reflexivity.
Qed.

Example gravel_is_drawn_pervious :
  PlanViewer.draw_polygon example_props (example_state None)
    (square "S1_P003" "gravel" 0 0 10 10)
  = PlanViewer.Painted
      (PlanViewer.mkStyle (Some "rgba(0, 200, 0, 0.3)") (Some "rgb(0, 200, 0)") 1
         (Some "Perv")).
Proof. reflexivity. Qed.

(** C9: the viewer does not treat every type outside building, concrete,
    asphalt, pervious, water as pervious. A polygon of type constructor, a
    name every object literal inherits, is outside the five types, yet the
    lookup in [SURFACE_COLORS] finds the inherited member and the pervious
    fallback is not taken: [drawCanvas] assigns no fill, no stroke and no
    label, and throws when the polygon is selected, where the same polygon
    with type pervious is painted with the pervious colours. The CSV export
    does give the polygon Perimeter Type Pervious. *)
Theorem inherited_name_skips_the_pervious_fallback :
  let p := square "S1_P003" "constructor" 0 0 10 10 in
  (poly_type p ∉ ["building"; "concrete"; "asphalt"; "pervious"; "water"])
  /\ PlanViewer.colors_of p = PlanViewer.PrototypeMember
  /\ PlanViewer.draw_polygon example_props (example_state None) p
     = PlanViewer.Painted (PlanViewer.mkStyle None None 1 None)
  /\ PlanViewer.draw_polygon example_props (example_state (Some "S1_P003")) p
     = PlanViewer.DrawThrows
  /\ PlanViewer.draw_polygon example_props (example_state None) (with_type p "pervious")
     = PlanViewer.Painted
         (PlanViewer.mkStyle (Some "rgba(0, 200, 0, 0.3)") (Some "rgb(0, 200, 0)") 1
            (Some "Perv"))
  /\ perimeterType p = "Pervious".
Proof.
  cbv zeta. split; [|repeat split].
  intros H. repeat (apply elem_of_cons in H as [H|H]; [discriminate|]). inversion H.
Qed.

End ResultsPanelFacts.

(** ** Review flags *)

Module ReviewFacts.
Import QualityAnalyzer Fixtures.
Local Open Scope Q_scope.

Lemma analyze_reasons (count : nat) (stats : SheetStats) (m : Measured) :
  review_reasons (analyze count stats m) = Some (reasons_of count stats m).
Proof. reflexivity. Qed.

Lemma analyze_review_needed (count : nat) (stats : SheetStats) (m : Measured) :
  review_needed (analyze count stats m) = true <-> reasons_of count stats m <> [].
Proof.
  unfold analyze. simpl. destruct (reasons_of count stats m); split; intros H.
  - discriminate.
  - contradiction.
  - discriminate.
  - reflexivity.
Qed.

(** Without the flag neither component renders reasons, whatever the
    polygon. *)
Lemma no_flag_no_reasons (p : Polygon) :
  review_needed p = false ->
  PlanViewer.detail_review p = PlanViewer.NoWarning
  /\ ResultsPanel.card_reasons p = None
  /\ ResultsPanel.card_badge p = false.
Proof.
  intros H. unfold PlanViewer.detail_review, ResultsPanel.card_reasons,
    ResultsPanel.card_badge. now rewrite H.
Qed.

(** C4: for every polygon the quality analyzer puts in a job result,
    [review_needed] is true if and only if [review_reasons] is not empty;
    so when the detail card of PlanViewer or a polygon card of ResultsPanel
    shows the review warning, the list of reasons it renders has at least
    one entry, and a polygon whose [review_needed] is false shows no
    reasons. *)
Theorem review_needed_iff_reasons (stats : SheetStats) (ms : list Measured)
    (p : Polygon) :
  p ∈ analyze_sheet stats ms ->
  (exists reasons,
     review_reasons p = Some reasons
     /\ (review_needed p = true <-> reasons <> []))
  /\ (review_needed p = true ->
      exists reason reasons,
        PlanViewer.detail_review p = PlanViewer.Warning (reason :: reasons)
        /\ ResultsPanel.card_reasons p = Some (reason :: reasons)
        /\ ResultsPanel.card_badge p = true)
  /\ (review_needed p = false ->
      PlanViewer.detail_review p = PlanViewer.NoWarning
      /\ ResultsPanel.card_reasons p = None
      /\ ResultsPanel.card_badge p = false).
Proof.
  intros Hin. unfold analyze_sheet in Hin.
  apply list_elem_of_fmap in Hin. destruct Hin as (m & -> & _).
  split; [|split].
  - exists (reasons_of (length ms) stats m).
    split; [apply analyze_reasons | apply analyze_review_needed].
  - intros Hn. pose proof (proj1 (analyze_review_needed _ _ _) Hn) as Hne.
    unfold PlanViewer.detail_review, ResultsPanel.card_reasons,
      ResultsPanel.card_badge.
    rewrite Hn, analyze_reasons.
    destruct (reasons_of (length ms) stats m) as [|reason reasons];
      [contradiction|].
    exists reason, reasons. auto.
  - apply no_flag_no_reasons.
Qed.

(** The cases of the spec's testable properties. *)
Example small_area_flagged :
  reasons_of 1 (mkSheetStats 50 0) (measured 50 (6 # 10) 4) = ["very small area"].
Proof. reflexivity. Qed.

Example large_area_flagged :
  reasons_of 1 (mkSheetStats 60000 0) (measured 60000 (6 # 10) 4) = ["very large area"].
Proof. reflexivity. Qed.

Example irregular_shape_flagged :
  reasons_of 1 (mkSheetStats 5000 0) (measured 5000 (1 # 10) 4) = ["irregular shape"].
Proof. reflexivity. Qed.

Example regular_polygon_not_flagged :
  reasons_of 1 (mkSheetStats 5000 0) (measured 5000 (6 # 10) 4) = [].
Proof. reflexivity. Qed.

Example outlier_skipped_on_small_sheet :
  reasons_of 9 (mkSheetStats 1000 10) (measured 40000 (6 # 10) 4) = [].
Proof. reflexivity. Qed.

Example outlier_flagged_on_large_sheet :
  reasons_of 10 (mkSheetStats 1000 10) (measured 40000 (6 # 10) 4)
  = ["statistical outlier"].
Proof. reflexivity. Qed.

Lemma review_needed_iff_reasons_witness :
  let p := analyze 1 (mkSheetStats 50 0) (measured 50 (6 # 10) 4) in
  (exists reasons,
     review_reasons p = Some reasons
     /\ (review_needed p = true <-> reasons <> []))
  /\ (review_needed p = true ->
      exists reason reasons,
        PlanViewer.detail_review p = PlanViewer.Warning (reason :: reasons)
        /\ ResultsPanel.card_reasons p = Some (reason :: reasons)
        /\ ResultsPanel.card_badge p = true)
  /\ (review_needed p = false ->
      PlanViewer.detail_review p = PlanViewer.NoWarning
      /\ ResultsPanel.card_reasons p = None
      /\ ResultsPanel.card_badge p = false).
Proof.
  apply (review_needed_iff_reasons (mkSheetStats 50 0) [measured 50 (6 # 10) 4]
           (analyze 1 (mkSheetStats 50 0) (measured 50 (6 # 10) 4))).
  simpl. left.
Defined.

End ReviewFacts.

(** ** The upload gate *)

Module PageFacts.
Import Page Fixtures.

Lemma handleFile_rejects (st : FileUpload.State) (file : File) :
  ~ is_pdf file ->
  FileUpload.handleFile st file = (st, [FileUpload.Alert "Please upload a PDF file"]).
Proof.
  intros H. unfold FileUpload.handleFile.
  destruct (String.eqb (file_type file) "application/pdf") eqn:E; [|reflexivity].
  apply String.eqb_eq in E. contradiction.
Qed.

Lemma handleFile_selected (st : FileUpload.State) (file f : File) :
  (forall g, FileUpload.selectedFile st = Some g -> is_pdf g) ->
  FileUpload.selectedFile (fst (FileUpload.handleFile st file)) = Some f -> is_pdf f.
Proof.
  intros Hst. unfold FileUpload.handleFile.
  destruct (String.eqb (file_type file) "application/pdf") eqn:E; simpl.
  - intros [= <-]. now apply String.eqb_eq.
  - apply Hst.
Qed.

Lemma handleFile_effects (st : FileUpload.State) (file : File) (w : App.World) :
  deliver (snd (FileUpload.handleFile st file)) w = w.
Proof.
  unfold FileUpload.handleFile.
  destruct (negb (String.eqb (file_type file) "application/pdf")); reflexivity.
Qed.

Lemma started_files_app (rs : list Api.Request) (r : Api.Request) :
  started_files (rs ++ [r])
  = (started_files rs
     ++ match r with Api.Post _ file => [file] | Api.Get _ => [] end)%list.
Proof.
  unfold started_files. rewrite omap_app. destruct r; reflexivity.
Qed.

Lemma started_files_step (w : App.World) (e : App.Event) :
  started_files (App.requests (App.step w e))
  = (started_files (App.requests w)
     ++ match e with App.Submit file => [file] | _ => [] end)%list.
Proof.
  destruct e as [file|file resp|message|h|jobId o]; simpl.
  - unfold App.handleFileUpload_call. apply started_files_app.
  - unfold App.handleFileUpload_resume, App.poll_call.
    cbn [App.send App.requests]. rewrite started_files_app. reflexivity.
  - now rewrite app_nil_r.
  - destruct (App.intervals w !! h); [|now rewrite app_nil_r].
    unfold App.poll_call. cbn [App.send App.requests].
    rewrite started_files_app. reflexivity.
  - rewrite app_nil_r. destruct o as [sd|]; simpl.
    + destruct (Api.status sd) as [s|]; [|reflexivity].
      destruct (String.eqb s "completed").
      * unfold App.clear_poll_interval. simpl.
        destruct (App.pollIntervalRef (App.app w)), (Api.result sd); reflexivity.
      * destruct (String.eqb s "error"); [|reflexivity].
        unfold App.clear_poll_interval. simpl.
        destruct (App.pollIntervalRef (App.app w)); reflexivity.
    + unfold App.clear_poll_interval.
      destruct (App.pollIntervalRef (App.app w)); reflexivity.
Qed.

Lemma only_pdf_handled (st : State) (r : FileUpload.State * list FileUpload.Effect) :
  (forall f, FileUpload.selectedFile (fst r) = Some f -> is_pdf f) ->
  Forall is_pdf (started_files (App.requests (deliver (snd r) (world st)))) ->
  only_pdf (handled st r).
Proof. intros H1 H2. split; assumption. Qed.

Lemma only_pdf_app_step (st : State) (e : App.Event) :
  only_pdf st ->
  match e with App.Submit _ => False | _ => True end ->
  only_pdf (mkState (upload st) (App.step (world st) e)).
Proof.
  intros [Hsel Hreq] He. split; [assumption|].
  cbn [world]. rewrite started_files_step.
  destruct e; [contradiction | | | | ]; now rewrite app_nil_r.
Qed.

Lemma only_pdf_step (st : State) (e : Event) : only_pdf st -> only_pdf (step st e).
Proof.
  intros Hst. pose proof Hst as [Hsel Hreq].
  destruct e; cbn [step]; try (apply only_pdf_app_step; [assumption | exact I]).
  - apply only_pdf_handled; unfold FileUpload.handleDrag;
      repeat case_match; simpl; auto.
  - unfold FileUpload.handleDrop. destruct files as [|file files].
    + apply only_pdf_handled; simpl; auto.
    + apply only_pdf_handled.
      * intros f. now apply handleFile_selected.
      * now rewrite handleFile_effects.
  - unfold FileUpload.handleChange. destruct files as [|file files].
    + apply only_pdf_handled; simpl; auto.
    + apply only_pdf_handled.
      * intros f. now apply handleFile_selected.
      * now rewrite handleFile_effects.
  - apply only_pdf_handled; simpl; auto.
  - destruct (FileUpload.upload_button _ _); [|assumption].
    unfold FileUpload.handleUpload.
    destruct (FileUpload.selectedFile (upload st)) as [file|] eqn:E.
    + apply only_pdf_handled; cbn [fst snd deliver]; [now rewrite E|].
      rewrite started_files_step. apply Forall_app. split; [assumption|].
      constructor; [now apply Hsel | constructor].
    + apply only_pdf_handled; cbn [fst snd deliver]; [now rewrite E | assumption].
Qed.

Lemma only_pdf_run (es : list Event) (st : State) : only_pdf st -> only_pdf (run st es).
Proof.
  revert st. induction es as [|e es IH]; intros st H; [exact H|].
  apply IH. now apply only_pdf_step.
Qed.

Lemma only_pdf_initial : only_pdf initial.
Proof. split; [discriminate | constructor]. Qed.

(** C6: for a file whose MIME type is not application/pdf, [handleFile]
    alerts and returns with the hooks as they were, so whether the file is
    chosen in the dialog or dropped it is not recorded as selected; and
    whatever the user and the network do on the page, the file is never
    the selected one, [onUpload] is never called with it and no start
    request is sent for it. *)
Theorem non_pdf_never_uploaded (file : File) (es : list Event) :
  file_type file <> "application/pdf" ->
  (forall st : FileUpload.State,
     FileUpload.handleFile st file = (st, [FileUpload.Alert "Please upload a PDF file"])
     /\ FileUpload.handleChange st [file]
        = (st, [FileUpload.Alert "Please upload a PDF file"])
     /\ fst (FileUpload.handleDrop st [file])
        = FileUpload.mkState false (FileUpload.selectedFile st)
     /\ (FileUpload.OnUpload file ∉ snd (FileUpload.handleDrop st [file])))
  /\ FileUpload.selectedFile (upload (run initial es)) <> Some file
  /\ (FileUpload.OnUpload file ∉ snd (FileUpload.handleUpload (upload (run initial es))))
  /\ (file ∉ started_files (App.requests (world (run initial es)))).
Proof.
  intros Hty.
  assert (Hnot : ~ is_pdf file) by exact Hty.
  destruct (only_pdf_run es initial only_pdf_initial) as [Hsel Hreq].
  split; [|split; [|split]].
  - intros st. split; [now apply handleFile_rejects|].
    split; [now apply handleFile_rejects|].
    unfold FileUpload.handleDrop. rewrite handleFile_rejects by assumption.
    split; [reflexivity|]. simpl. intros H.
    apply list_elem_of_singleton in H. discriminate.
  - intros E. apply Hnot. now apply Hsel.
  - unfold FileUpload.handleUpload.
    destruct (FileUpload.selectedFile (upload (run initial es))) as [g|] eqn:E; simpl.
    + intros H. apply list_elem_of_singleton in H. injection H as <-.
      apply Hnot. now apply Hsel.
    + intros H. inversion H.
  - intros Hin. rewrite Forall_forall in Hreq. apply Hnot. now apply Hreq.
Qed.

(** A PDF is selected, then a picture is dropped and the button clicked:
    what is sent is the PDF. *)
Example picture_dropped_pdf_kept :
  started_files (App.requests (world
    (run initial [Change [plan_pdf]; Drop [photo_png]; ClickProcess])))
  = [plan_pdf].
Proof. reflexivity. Qed.

Lemma non_pdf_never_uploaded_witness :
  FileUpload.handleFile FileUpload.initial photo_png
  = (FileUpload.initial, [FileUpload.Alert "Please upload a PDF file"])
  /\ (photo_png ∉ started_files (App.requests (world
        (run initial [Change [plan_pdf]; Drop [photo_png]; ClickProcess])))).
Proof.
  destruct (non_pdf_never_uploaded photo_png
              [Change [plan_pdf]; Drop [photo_png]; ClickProcess])
    as (Hfile & _ & _ & Hreq).
  { discriminate. }
  split; [apply Hfile | exact Hreq].
Defined.

End PageFacts.

(** ** Submit, poll, stop *)

Module AppFacts.
Import App Fixtures.

(** *** The hooks after each handler *)

Lemma clear_poll_interval_app (w : World) :
  results (app (clear_poll_interval w)) = results (app w)
  /\ loading (app (clear_poll_interval w)) = loading (app w)
  /\ error (app (clear_poll_interval w)) = error (app w)
  /\ progress (app (clear_poll_interval w)) = progress (app w)
  /\ pollIntervalRef (app (clear_poll_interval w)) = None
  /\ requests (clear_poll_interval w) = requests w.
Proof.
  unfold clear_poll_interval.
  destruct (pollIntervalRef (app w)) eqn:E; simpl; auto 10.
Qed.


Lemma clear_poll_interval_ref (w : World) :
  pollIntervalRef (app (clear_poll_interval w)) = None.
Proof. apply clear_poll_interval_app. Qed.

Lemma clear_poll_interval_requests (w : World) :
  requests (clear_poll_interval w) = requests w.
Proof. apply clear_poll_interval_app. Qed.

Lemma clear_after_setProgress (f : Progress -> Progress) (w : World) :
  intervals (clear_poll_interval (setProgress f w)) = intervals (clear_poll_interval w).
Proof.
  unfold clear_poll_interval, setProgress. simpl.
  destruct (pollIntervalRef (app w)); reflexivity.
Qed.

Lemma clear_poll_interval_intervals (w : World) :
  intervals (clear_poll_interval w)
  = match pollIntervalRef (app w) with
    | Some h => delete h (intervals w)
    | None => intervals w
    end.
Proof. unfold clear_poll_interval. destruct (pollIntervalRef (app w)); reflexivity. Qed.

Lemma string_or_truthy (s : option string) (d : string) :
  d <> "" -> Js.truthy_string (Some (Js.string_or s d)) = true.
Proof.
  intros Hd. unfold Js.string_or, Js.truthy_string.
  destruct s as [v|].
  - destruct (String.eqb v "") eqn:E; [|now rewrite E].
    apply negb_true_iff, String.eqb_neq, Hd.
  - apply negb_true_iff, String.eqb_neq, Hd.
Qed.

(** Splitting on how the handler reads the status of a snapshot. *)
Lemma status_cases (sd : Api.StatusData) :
  Api.status sd = Some "completed"
  \/ Api.status sd = Some "error"
  \/ (Api.status sd <> Some "completed" /\ Api.status sd <> Some "error").
Proof.
  destruct (Api.status sd) as [s|]; [|right; right; split; discriminate].
  destruct (String.eqb s "completed") eqn:E1.
  { apply String.eqb_eq in E1. subst. now left. }
  destruct (String.eqb s "error") eqn:E2.
  { apply String.eqb_eq in E2. subst. right. now left. }
  apply String.eqb_neq in E1, E2. right. right. split; congruence.
Qed.

Lemma poll_resume_completed (sd : Api.StatusData) (w : World) :
  Api.status sd = Some "completed" ->
  poll_resume (Resolved sd) w
  = setLoading false
      (match Api.result sd with
       | Some r => setResults (Some r)
       | None => fun w => w
       end (clear_poll_interval (setProgress (fun _ => progress_of sd) w))).
Proof.
  intros H. unfold poll_resume. fold (progress_of sd). rewrite H.
  destruct (Api.result sd); reflexivity.
Qed.

Lemma poll_resume_error (sd : Api.StatusData) (w : World) :
  Api.status sd = Some "error" ->
  poll_resume (Resolved sd) w
  = setLoading false
      (setError (Some (Js.string_or (Api.error sd) "Processing failed"))
         (clear_poll_interval (setProgress (fun _ => progress_of sd) w))).
Proof. intros H. unfold poll_resume. fold (progress_of sd). now rewrite H. Qed.

Lemma poll_resume_other (sd : Api.StatusData) (w : World) :
  Api.status sd <> Some "completed" -> Api.status sd <> Some "error" ->
  poll_resume (Resolved sd) w = setProgress (fun _ => progress_of sd) w.
Proof.
  intros H1 H2. unfold poll_resume. fold (progress_of sd).
  destruct (Api.status sd) as [s|]; [|reflexivity].
  destruct (String.eqb s "completed") eqn:E1.
  { apply String.eqb_eq in E1. congruence. }
  destruct (String.eqb s "error") eqn:E2.
  { apply String.eqb_eq in E2. congruence. }
  reflexivity.
Qed.

Lemma poll_resume_rejected (w : World) :
  poll_resume Rejected w
  = setLoading false
      (setError (Some "Lost connection to processing job") (clear_poll_interval w)).
Proof. reflexivity. Qed.

Lemma poll_resume_progress (sd : Api.StatusData) (w : World) :
  progress (app (poll_resume (Resolved sd) w)) = progress_of sd.
Proof.
  destruct (status_cases sd) as [H|[H|[H1 H2]]].
  - rewrite poll_resume_completed by assumption.
    destruct (Api.result sd); simpl; apply clear_poll_interval_app.
  - rewrite poll_resume_error by assumption. simpl. apply clear_poll_interval_app.
  - now rewrite poll_resume_other.
Qed.

(** C1: for every snapshot a status poll returns, the handler shows the
    progress of the snapshot; it stores a result only from a snapshot whose
    status is completed and that carries a result, and then displays it; it
    stores an error message only from a snapshot whose status is error, and
    then displays it; for any other status the progress is all that
    changes, result and error stay as stored and as displayed. *)
Theorem poll_result_and_error_follow_status (w : World) (sd : Api.StatusData) :
  let w' := poll_resume (Resolved sd) w in
  progress (app w') = progress_of sd
  /\ (Api.status sd = Some "completed" ->
      results (app w')
      = match Api.result sd with Some r => Some r | None => results (app w) end
      /\ view_results (render (app w')) = results (app w')
      /\ error (app w') = error (app w))
  /\ (Api.status sd = Some "error" ->
      error (app w') = Some (Js.string_or (Api.error sd) "Processing failed")
      /\ view_error (render (app w')) = error (app w')
      /\ results (app w') = results (app w))
  /\ (Api.status sd <> Some "completed" -> Api.status sd <> Some "error" ->
      w' = setProgress (fun _ => progress_of sd) w
      /\ results (app w') = results (app w)
      /\ error (app w') = error (app w)
      /\ view_results (render (app w')) = view_results (render (app w))
      /\ view_error (render (app w')) = view_error (render (app w)))
  /\ (results (app w') <> results (app w) ->
      Api.status sd = Some "completed"
      /\ exists r, Api.result sd = Some r /\ results (app w') = Some r)
  /\ (error (app w') <> error (app w) -> Api.status sd = Some "error").
Proof.
  cbv zeta.
  assert (Hcompleted : Api.status sd = Some "completed" ->
    results (app (poll_resume (Resolved sd) w))
    = match Api.result sd with Some r => Some r | None => results (app w) end
    /\ loading (app (poll_resume (Resolved sd) w)) = false
    /\ error (app (poll_resume (Resolved sd) w)) = error (app w)).
  { intros H. rewrite poll_resume_completed by assumption.
    destruct (clear_poll_interval_app (setProgress (fun _ => progress_of sd) w))
      as (Hr & _ & He & _).
    destruct (Api.result sd); simpl; rewrite ?Hr, ?He; auto. }
  assert (Herror : Api.status sd = Some "error" ->
    error (app (poll_resume (Resolved sd) w))
    = Some (Js.string_or (Api.error sd) "Processing failed")
    /\ results (app (poll_resume (Resolved sd) w)) = results (app w)).
  { intros H. rewrite poll_resume_error by assumption.
    destruct (clear_poll_interval_app (setProgress (fun _ => progress_of sd) w))
      as (Hr & _).
    simpl. rewrite Hr. auto. }
  split; [apply poll_resume_progress|].
  split; [|split; [|split; [|split]]].
  - intros H. destruct (Hcompleted H) as (Hr & Hl & He).
    split; [exact Hr|]. split; [|exact He].
    unfold render. cbn [view_results]. now rewrite Hl.
  - intros H. destruct (Herror H) as (He & Hr).
    split; [exact He|]. split; [|exact Hr].
    unfold render. cbn [view_error]. rewrite He.
    now rewrite string_or_truthy.
  - intros H1 H2. rewrite (poll_resume_other _ _ H1 H2). auto.
  - intros Hne. destruct (status_cases sd) as [H|[H|[H1 H2]]].
    + split; [exact H|]. destruct (Hcompleted H) as (Hr & _).
      destruct (Api.result sd) as [r|]; [now exists r | congruence].
    + destruct (Herror H) as (_ & Hr). congruence.
    + rewrite (poll_resume_other _ _ H1 H2) in Hne. now contradict Hne.
  - intros Hne. destruct (status_cases sd) as [H|[H|[H1 H2]]].
    + destruct (Hcompleted H) as (_ & _ & He). congruence.
    + exact H.
    + rewrite (poll_resume_other _ _ H1 H2) in Hne. now contradict Hne.
Qed.

Lemma poll_result_and_error_follow_status_witness :
  let w := handleFileUpload_resume plan_pdf start_response
             (handleFileUpload_call plan_pdf initial_world) in
  (results (app (poll_resume (Resolved completed_snapshot) w)) = Some example_results
   /\ view_results (render (app (poll_resume (Resolved completed_snapshot) w)))
      = Some example_results)
  /\ (error (app (poll_resume (Resolved error_snapshot) w)) = Some "Could not read page 2"
      /\ view_error (render (app (poll_resume (Resolved error_snapshot) w)))
         = Some "Could not read page 2")
  /\ poll_resume (Resolved running_snapshot) w
     = setProgress (fun _ => mkProgress 1 3 "running") w.
Proof.
  intros w.
  destruct (poll_result_and_error_follow_status w completed_snapshot)
    as (_ & Hcompleted & _).
  destruct (poll_result_and_error_follow_status w error_snapshot)
    as (_ & _ & Herror & _).
  destruct (poll_result_and_error_follow_status w running_snapshot)
    as (_ & _ & _ & Hother & _).
  destruct (Hcompleted eq_refl) as (Hr & Hv & _).
  destruct (Herror eq_refl) as (He & Hve & _).
  destruct Hother as (Hw & _); [discriminate | discriminate |].
  split; [split; [exact Hr | rewrite Hv; exact Hr]|].
  split; [split; [exact He | rewrite Hve; exact He]|].
  exact Hw.
Defined.

(** *** Timers and requests *)

Lemma poll_resume_requests (o : Outcome) (w : World) :
  requests (poll_resume o w) = requests w.
Proof.
  destruct o as [sd|].
  - destruct (status_cases sd) as [H|[H|[H1 H2]]].
    + rewrite poll_resume_completed by assumption.
      destruct (Api.result sd); simpl; now rewrite clear_poll_interval_requests.
    + rewrite poll_resume_error by assumption. simpl.
      now rewrite clear_poll_interval_requests.
    + now rewrite poll_resume_other.
  - rewrite poll_resume_rejected. simpl. now rewrite clear_poll_interval_requests.
Qed.

(** On a final status and on a failed request the timer is cleared. *)
Lemma poll_resume_clears (o : Outcome) (w : World) :
  match o with Resolved sd => terminal sd | Rejected => True end ->
  intervals (poll_resume o w) = intervals (clear_poll_interval w)
  /\ pollIntervalRef (app (poll_resume o w)) = None.
Proof.
  destruct o as [sd|]; intros Ht.
  - destruct Ht as [H|H].
    + rewrite poll_resume_completed by assumption.
      destruct (Api.result sd); simpl;
        rewrite clear_poll_interval_ref, clear_after_setProgress; auto.
    + rewrite poll_resume_error by assumption. simpl.
      rewrite clear_poll_interval_ref, clear_after_setProgress; auto.
  - rewrite poll_resume_rejected. simpl.
    rewrite clear_poll_interval_ref; auto.
Qed.

(** The handler either leaves the timers and the ref alone or clears the
    timer the ref holds. *)
Lemma poll_resume_timers (o : Outcome) (w : World) :
  (intervals (poll_resume o w) = intervals w
   /\ pollIntervalRef (app (poll_resume o w)) = pollIntervalRef (app w))
  \/ (intervals (poll_resume o w) = intervals (clear_poll_interval w)
      /\ pollIntervalRef (app (poll_resume o w)) = None).
Proof.
  destruct o as [sd|].
  - destruct (status_cases sd) as [H|[H|[H1 H2]]].
    + right. apply poll_resume_clears. now left.
    + right. apply poll_resume_clears. now right.
    + left. now rewrite poll_resume_other.
  - right. now apply poll_resume_clears.
Qed.

Lemma clear_leaves_no_timer (jobId : string) (w : World) :
  timer_in_ref jobId w -> no_timer jobId (clear_poll_interval w).
Proof.
  intros Hin h Hh. rewrite clear_poll_interval_intervals in Hh.
  destruct (pollIntervalRef (app w)) as [h0|] eqn:E.
  - destruct (decide (h0 = h)) as [->|Hne].
    + rewrite lookup_delete_eq in Hh. discriminate.
    + rewrite lookup_delete_ne in Hh by assumption.
      apply Hin in Hh. congruence.
  - apply Hin in Hh. congruence.
Qed.

Lemma no_timer_in_ref (jobId : string) (w : World) :
  no_timer jobId w -> timer_in_ref jobId w.
Proof. intros H h Hh. now apply H in Hh. Qed.

Lemma no_timer_clear (jobId : string) (w : World) :
  no_timer jobId w -> no_timer jobId (clear_poll_interval w).
Proof. intros H. now apply clear_leaves_no_timer, no_timer_in_ref. Qed.

(** Starting the timer of a job puts its id in the ref. *)
Lemma resume_timer_in_ref (file : File) (resp : Api.Response Api.StartData) (w : World) :
  no_timer (Api.job_id (Api.data resp)) w ->
  timer_in_ref (Api.job_id (Api.data resp)) (handleFileUpload_resume file resp w).
Proof.
  intros Hno h Hh. unfold handleFileUpload_resume in *. simpl in *.
  destruct (decide (next_handle w = h)) as [->|Hne]; [reflexivity|].
  rewrite lookup_insert_ne in Hh by assumption. now apply Hno in Hh.
Qed.

Lemma timer_in_ref_step (jobId : string) (w : World) (e : Event) :
  starts_job e = None -> timer_in_ref jobId w -> timer_in_ref jobId (step w e).
Proof.
  intros He Hin. destruct e as [file|file resp|message|h|j o]; try discriminate.
  - exact Hin.
  - exact Hin.
  - simpl. destruct (intervals w !! h); exact Hin.
  - cbn [step]. destruct (poll_resume_timers o w) as [[Hi Hr]|[Hi Hr]].
    + intros h Hh. rewrite Hi in Hh. rewrite Hr. now apply Hin.
    + intros h Hh. rewrite Hi in Hh.
      now apply (clear_leaves_no_timer _ _ Hin) in Hh.
Qed.

Lemma timer_in_ref_run (jobId : string) (es : list Event) (w : World) :
  Forall (fun e => starts_job e = None) es ->
  timer_in_ref jobId w -> timer_in_ref jobId (run w es).
Proof.
  intros Hes. revert w. induction Hes as [|e es He _ IH]; intros w Hin; [exact Hin|].
  apply IH. now apply timer_in_ref_step.
Qed.

Lemma append_inv_head (p a b : string) : p +:+ a = p +:+ b -> a = b.
Proof.
  induction p as [|ch p IH]; intros H; [exact H|].
  change (String ch (p +:+ a) = String ch (p +:+ b)) in H.
  injection H as H. now apply IH.
Qed.

Lemma is_poll_of_status (jobId jobId' : string) :
  is_poll_of jobId (Api.request (Api.getProcessStatus jobId')) = true <-> jobId' = jobId.
Proof.
  unfold is_poll_of, Api.getProcessStatus. cbn [Api.request].
  rewrite String.eqb_eq. split.
  - intros H. now do 2 apply append_inv_head in H.
  - now intros ->.
Qed.

Lemma polls_of_snoc (jobId : string) (rs : list Api.Request) (r : Api.Request) :
  is_poll_of jobId r = false -> polls_of jobId (rs ++ [r]) = polls_of jobId rs.
Proof.
  intros H. unfold polls_of. rewrite List.filter_app. simpl. rewrite H.
  apply app_nil_r.
Qed.

Lemma polls_of_other (jobId jobId' : string) (w : World) :
  jobId' <> jobId ->
  polls_of jobId (requests (poll_call jobId' w)) = polls_of jobId (requests w).
Proof.
  intros Hne. unfold poll_call. cbn [send requests]. apply polls_of_snoc.
  destruct (is_poll_of _ _) eqn:E; [|reflexivity].
  apply is_poll_of_status in E. contradiction.
Qed.

(** Once no timer polls a job, no event but a new start for that job
    brings a timer or a status request for it. *)
Lemma no_timer_step (jobId : string) (w : World) (e : Event) :
  starts_job e <> Some jobId -> no_timer jobId w ->
  no_timer jobId (step w e)
  /\ polls_of jobId (requests (step w e)) = polls_of jobId (requests w).
Proof.
  intros He Hno. destruct e as [file|file resp|message|h|j o].
  - split; [exact Hno|]. cbn [step]. unfold handleFileUpload_call.
    cbn [send requests]. now apply polls_of_snoc.
  - cbn [starts_job Api.returns Api.startProcessJob] in He.
    assert (Hj : Api.job_id (Api.data resp) <> jobId) by congruence.
    split.
    + intros h Hh. cbn in Hh.
      destruct (decide (next_handle w = h)) as [Heq|Hne].
      * rewrite Heq, lookup_insert_eq in Hh. congruence.
      * rewrite lookup_insert_ne in Hh by assumption. now apply Hno in Hh.
    + cbn [step]. unfold handleFileUpload_resume.
      now rewrite polls_of_other.
  - split; [exact Hno | reflexivity].
  - cbn [step]. destruct (intervals w !! h) as [j|] eqn:E; [|split; [exact Hno | reflexivity]].
    split; [exact Hno|]. apply polls_of_other. intros ->. now apply Hno in E.
  - cbn [step]. rewrite poll_resume_requests. split; [|reflexivity].
    destruct (poll_resume_timers o w) as [[Hi _]|[Hi _]]; intros h Hh; rewrite Hi in Hh.
    + now apply Hno in Hh.
    + now apply (no_timer_clear _ _ Hno) in Hh.
Qed.

Lemma no_timer_run (jobId : string) (es : list Event) (w : World) :
  Forall (fun e => starts_job e <> Some jobId) es -> no_timer jobId w ->
  no_timer jobId (run w es)
  /\ polls_of jobId (requests (run w es)) = polls_of jobId (requests w).
Proof.
  intros Hes. revert w. induction Hes as [|e es He _ IH]; intros w Hno; [auto|].
  destruct (no_timer_step jobId w e He Hno) as [Hno' Hreq].
  destruct (IH _ Hno') as [Hno'' Hreq'].
  split; [exact Hno''|]. simpl. now rewrite Hreq', Hreq.
Qed.

(** What the handler leaves behind when it has cleared the timer of a job
    that was started alone and polled alone. *)
Lemma polling_stops (w : World) (file : File) (resp : Api.Response Api.StartData)
    (before after : list Event) (o : Outcome) :
  let jobId := Api.job_id (Api.data resp) in
  no_timer jobId w ->
  Forall (fun e => starts_job e = None) before ->
  match o with Resolved sd => terminal sd | Rejected => True end ->
  Forall (fun e => starts_job e <> Some jobId) after ->
  let w1 := run (step w (StartResolved file resp)) before in
  let w2 := step w1 (StatusSettled jobId o) in
  pollIntervalRef (app w2) = None
  /\ no_timer jobId w2
  /\ requests w2 = requests w1
  /\ no_timer jobId (run w2 after)
  /\ polls_of jobId (requests (run w2 after)) = polls_of jobId (requests w1).
Proof.
  intros jobId Hno Hbefore Ho Hafter w1 w2.
  assert (Hin : timer_in_ref jobId w1).
  { apply timer_in_ref_run; [assumption|]. now apply resume_timer_in_ref. }
  destruct (poll_resume_clears o w1 Ho) as [Hi Hr].
  assert (Hno2 : no_timer jobId w2).
  { intros h Hh. unfold w2 in Hh. cbn [step] in Hh. rewrite Hi in Hh.
    now apply (clear_leaves_no_timer _ _ Hin) in Hh. }
  assert (Hreq : requests w2 = requests w1) by apply poll_resume_requests.
  destruct (no_timer_run jobId after w2 Hafter Hno2) as [Hno3 Hpolls].
  repeat split; try assumption. now rewrite Hpolls, Hreq.
Qed.


(** *** The claims on the protocol *)

(** For a job polled alone, completed and error are final. Take a job whose
    start has resolved and whose timer runs, with no other job started in
    between; once the poll handler sees a snapshot of that job with status
    completed or error, it clears the interval the ref holds and sets the
    ref to null, no timer polls the job any longer, the handler itself sends
    nothing, and whatever happens afterwards, short of a new start that
    returns the same job id, no further status request for the job goes
    out. *)
Theorem terminal_status_stops_polling (w : World) (file : File)
    (resp : Api.Response Api.StartData) (before after : list Event)
    (sd : Api.StatusData) :
  no_timer (Api.job_id (Api.data resp)) w ->
  Forall (fun e => starts_job e = None) before ->
  terminal sd ->
  Forall (fun e => starts_job e <> Some (Api.job_id (Api.data resp))) after ->
  let jobId := Api.job_id (Api.data resp) in
  let w1 := run (step w (StartResolved file resp)) before in
  let w2 := step w1 (StatusSettled jobId (Resolved sd)) in
  pollIntervalRef (app w2) = None
  /\ (forall h, pollIntervalRef (app w1) = Some h -> intervals w2 !! h = None)
  /\ no_timer jobId w2
  /\ requests w2 = requests w1
  /\ no_timer jobId (run w2 after)
  /\ polls_of jobId (requests (run w2 after)) = polls_of jobId (requests w1).
Proof.
  intros Hno Hbefore Hsd Hafter jobId w1 w2.
  destruct (polling_stops w file resp before after (Resolved sd) Hno Hbefore Hsd Hafter)
    as (Href & Hno2 & Hreq & Hno3 & Hpolls).
  split; [exact Href|]. split; [|auto].
  intros h Hh. unfold w2. cbn [step].
  rewrite (proj1 (poll_resume_clears (Resolved sd) w1 Hsd)).
  rewrite clear_poll_interval_intervals. fold w1. rewrite Hh.
  apply lookup_delete_eq.
Qed.

(** One job on a fresh page: started, polled twice, then completed; the
    timer fires twice more to no effect. *)
Lemma terminal_status_stops_polling_witness :
  let w1 := run (step initial_world (StartResolved plan_pdf start_response))
              [Tick 1; StatusSettled "job-1" (Resolved running_snapshot)] in
  let w2 := step w1 (StatusSettled "job-1" (Resolved completed_snapshot)) in
  pollIntervalRef (app w2) = None
  /\ (forall h, pollIntervalRef (app w1) = Some h -> intervals w2 !! h = None)
  /\ no_timer "job-1" w2
  /\ requests w2 = requests w1
  /\ no_timer "job-1" (run w2 [Tick 1; Tick 1])
  /\ polls_of "job-1" (requests (run w2 [Tick 1; Tick 1]))
     = polls_of "job-1" (requests w1).
Proof.
  apply (terminal_status_stops_polling initial_world plan_pdf start_response
           [Tick 1; StatusSettled "job-1" (Resolved running_snapshot)]
           [Tick 1; Tick 1] completed_snapshot).
  - intros h. cbn [intervals initial_world]. rewrite lookup_empty. discriminate.
  - repeat constructor.
  - left. reflexivity.
  - repeat constructor; discriminate.
Defined.

Example polls_of_one_job :
  polls_of "job-1" (requests
    (run initial_world
       [Submit plan_pdf; StartResolved plan_pdf start_response; Tick 1;
        StatusSettled "job-1" (Resolved running_snapshot);
        StatusSettled "job-1" (Resolved completed_snapshot); Tick 1; Tick 1]))
  = [Api.Get "http://localhost:8000/api/process/status/job-1";
     Api.Get "http://localhost:8000/api/process/status/job-1"].
Proof. vm_compute. reflexivity. Qed.

(** The assumption on the events before the final snapshot is needed: the
    ref holds one timer id, so when a second start resolves before the first
    job is done, the timer of the first job is out of reach of the handler
    and goes on polling. *)
Example overlapping_starts_leave_a_timer :
  let w := run initial_world
             [StartResolved plan_pdf start_response;
              StartResolved plan_pdf second_response;
              StatusSettled "job-1" (Resolved completed_snapshot)] in
  intervals w !! 1%positive = Some "job-1"
  /\ pollIntervalRef (app w) = None
  /\ length (polls_of "job-1" (requests w)) = 1%nat
  /\ length (polls_of "job-1" (requests (step w (Tick 1)))) = 2%nat.
Proof. vm_compute. auto. Qed.

(** For a job polled alone, there is no retry. Take a job whose start has
    resolved and whose timer runs, with no other job started in between; when
    a status request
    for it fails, the handler clears the interval and the ref, sends
    nothing, neither the request again nor anything else, stores and
    shows the error Lost connection to processing job, and whatever
    happens afterwards, short of a new start that returns the same job id,
    no further status request for the job goes out. *)
Theorem failed_poll_is_not_retried (w : World) (file : File)
    (resp : Api.Response Api.StartData) (before after : list Event) :
  no_timer (Api.job_id (Api.data resp)) w ->
  Forall (fun e => starts_job e = None) before ->
  Forall (fun e => starts_job e <> Some (Api.job_id (Api.data resp))) after ->
  let jobId := Api.job_id (Api.data resp) in
  let w1 := run (step w (StartResolved file resp)) before in
  let w2 := step w1 (StatusSettled jobId Rejected) in
  error (app w2) = Some "Lost connection to processing job"
  /\ view_error (render (app w2)) = Some "Lost connection to processing job"
  /\ loading (app w2) = false
  /\ pollIntervalRef (app w2) = None
  /\ no_timer jobId w2
  /\ requests w2 = requests w1
  /\ no_timer jobId (run w2 after)
  /\ polls_of jobId (requests (run w2 after)) = polls_of jobId (requests w1).
Proof.
  intros Hno Hbefore Hafter jobId w1 w2.
  destruct (polling_stops w file resp before after Rejected Hno Hbefore I Hafter)
    as (Href & Hno2 & Hreq & Hno3 & Hpolls).
  repeat split; assumption || reflexivity.
Qed.

Lemma failed_poll_is_not_retried_witness :
  let w1 := run (step initial_world (StartResolved plan_pdf start_response))
              [Tick 1; StatusSettled "job-1" (Resolved running_snapshot)] in
  let w2 := step w1 (StatusSettled "job-1" Rejected) in
  error (app w2) = Some "Lost connection to processing job"
  /\ view_error (render (app w2)) = Some "Lost connection to processing job"
  /\ loading (app w2) = false
  /\ pollIntervalRef (app w2) = None
  /\ no_timer "job-1" w2
  /\ requests w2 = requests w1
  /\ no_timer "job-1" (run w2 [Tick 1; Submit plan_pdf])
  /\ polls_of "job-1" (requests (run w2 [Tick 1; Submit plan_pdf]))
     = polls_of "job-1" (requests w1).
Proof.
  apply (failed_poll_is_not_retried initial_world plan_pdf start_response
           [Tick 1; StatusSettled "job-1" (Resolved running_snapshot)]
           [Tick 1; Submit plan_pdf]).
  - intros h. cbn [intervals initial_world]. rewrite lookup_empty. discriminate.
  - repeat constructor.
  - repeat constructor; discriminate.
Defined.



End AppFacts.

(** * Further properties of the components *)

(** ** PlanViewer: geometry *)

Module GeometryFacts.
Import PlanViewer Shapes Fixtures.
Local Open Scope Q_scope.

Lemma lt_reflect (a b : Q) : reflect (a < b) (Js.lt a b).
Proof.
  destruct (Js.lt a b) eqn:E; constructor.
  - now apply JsFacts.lt_spec.
  - intros H. apply JsFacts.lt_spec in H. congruence.
Qed.

Lemma lt_compat (a b b' : Q) : b == b' -> Js.lt a b = Js.lt a b'.
Proof. intros H. unfold Js.lt. now rewrite H. Qed.

(** *** The ray-casting test *)

(** X4: on an axis-aligned rectangle the ray-casting test is membership in
    the half-open box: the left and bottom edges are inside, the right and
    top edges are outside. *)
Theorem rectangle_hit_is_half_open_box (x0 y0 x1 y1 px py : Q) :
  x0 < x1 -> y0 < y1 ->
  isPointInPolygonPdf px py (rectangle x0 y0 x1 y1) = true
  <-> (x0 <= px /\ px < x1 /\ y0 <= py /\ py < y1).
Proof.
  intros Hx Hy. unfold isPointInPolygonPdf, rectangle.
  cbn [List.last ray_loop intersect]. unfold Js.gt, Js.bool_neq.
  rewrite (lt_compat px ((x0 - x0) * (py - y0) / (y1 - y0) + x0) x0)
    by (unfold Qdiv; ring).
  rewrite (lt_compat px ((x1 - x1) * (py - y1) / (y0 - y1) + x1) x1)
    by (unfold Qdiv; ring).
  destruct (lt_reflect py y0), (lt_reflect py y1), (lt_reflect px x0),
    (lt_reflect px x1); cbn; split;
    solve [ discriminate | reflexivity | intros; exfalso; lra
          | intros; repeat split; lra ].
Qed.

Lemma rectangle_hit_is_half_open_box_witness :
  isPointInPolygonPdf 100 100 (rectangle 100 100 300 300) = true
  /\ ~ isPointInPolygonPdf 300 300 (rectangle 100 100 300 300) = true.
Proof.
  pose proof (rectangle_hit_is_half_open_box 100 100 300 300 100 100 eq_refl eq_refl) as H1.
  pose proof (rectangle_hit_is_half_open_box 100 100 300 300 300 300 eq_refl eq_refl) as H2.
  split.
  - apply H1. repeat split; discriminate || reflexivity.
  - intros H. apply H2 in H. destruct H as (_ & H & _). vm_compute in H. discriminate.
Defined.

Lemma ray_loop_no_crossing (P : Coord -> Prop) (px py : Q) :
  (forall a b, P a -> P b -> intersect px py a b = false) ->
  forall (rest : list Coord) (vj : Coord) (inside : bool),
    P vj -> Forall P rest -> ray_loop px py vj rest inside = inside.
Proof.
  intros HP rest. induction rest as [|vi rest IH]; intros vj inside Hj Hrest;
    [reflexivity|].
  inversion Hrest as [|? ? Hi Hrest']; subst. simpl.
  rewrite (HP vi vj Hi Hj). now apply IH.
Qed.

Lemma no_crossing_false (P : Coord -> Prop) (px py : Q) (coords : list Coord) :
  (forall a b, P a -> P b -> intersect px py a b = false) ->
  Forall P coords -> isPointInPolygonPdf px py coords = false.
Proof.
  intros HP Hall. unfold isPointInPolygonPdf. destruct coords as [|v0 coords']; [reflexivity|].
  apply (ray_loop_no_crossing P); [assumption | | assumption].
  rewrite Forall_forall in Hall. apply Hall. apply list_elem_of_In.
  destruct (@List.exists_last _ (v0 :: coords')) as (l' & a & E); [discriminate|].
  rewrite E, List.last_last. apply List.in_or_app. right. now left.
Qed.

(** X5: whatever the polygon, a point strictly below every vertex and a
    point at or above every vertex are outside; so a polygon with no vertex
    or with one vertex contains no point. *)
Theorem outside_the_heights_is_outside (px py : Q) (coords : list Coord) :
  (Forall (fun v => py < snd v) coords \/ Forall (fun v => snd v <= py) coords ->
   isPointInPolygonPdf px py coords = false)
  /\ ((length coords <= 1)%nat -> isPointInPolygonPdf px py coords = false).
Proof.
  assert (Hmain : Forall (fun v => py < snd v) coords
                  \/ Forall (fun v => snd v <= py) coords ->
                  isPointInPolygonPdf px py coords = false).
  { intros [H|H].
    - apply (no_crossing_false (fun v => py < snd v)); [|assumption].
      intros [xa ya] [xb yb] Ha Hb. cbn in *. unfold Js.gt, Js.bool_neq.
      destruct (lt_reflect py ya), (lt_reflect py yb); try reflexivity; contradiction.
    - apply (no_crossing_false (fun v => snd v <= py)); [|assumption].
      intros [xa ya] [xb yb] Ha Hb. cbn in *. unfold Js.gt, Js.bool_neq.
      destruct (lt_reflect py ya), (lt_reflect py yb); try reflexivity; exfalso; lra. }
  split; [exact Hmain|].
  intros Hlen. destruct coords as [|[xa ya] [|b coords]]; [reflexivity | |simpl in Hlen; lia].
  apply Hmain. destruct (Qlt_le_dec py ya) as [Hlt|Hle].
  - left. now repeat constructor.
  - right. now repeat constructor.
Qed.

Lemma outside_the_heights_is_outside_witness :
  isPointInPolygonPdf 250 450 [(100, 100); (400, 200); (250, 400)] = false
  /\ isPointInPolygonPdf 100 100 [(100, 100)] = false.
Proof.
  destruct (outside_the_heights_is_outside 250 450 [(100, 100); (400, 200); (250, 400)])
    as [Hout _].
  destruct (outside_the_heights_is_outside 100 100 [(100, 100)]) as [_ Hone].
  split.
  - apply Hout. right. repeat constructor; discriminate.
  - apply Hone. simpl. lia.
Defined.

End GeometryFacts.

(** ** PlanViewer: hover, click and the detail card *)

Module InteractionFacts.
Import PlanViewer Shapes Fixtures.
Local Open Scope Q_scope.

(** The point a pointer event is mapped to. *)
Lemma click_at (pr : Props) (st : State) (rect : Rect) (clientX clientY : Q) :
  canvas st = Some rect ->
  handleCanvasClick pr st clientX clientY
  = (with_selectedPolygon st
       (fst (click_loop pr (selectedPolygon st)
               (mapScreenToPdf (sheet pr) (viewDimensions st)
                  (clientX - left rect) (clientY - top rect))
               (sheet_polygons (sheet pr)))),
     snd (click_loop pr (selectedPolygon st)
            (mapScreenToPdf (sheet pr) (viewDimensions st)
               (clientX - left rect) (clientY - top rect))
            (sheet_polygons (sheet pr)))).
Proof.
  intros Hc. unfold handleCanvasClick. rewrite Hc. cbv zeta.
  now destruct (click_loop _ _ _ _).
Qed.

Lemma move_at (pr : Props) (st : State) (rect : Rect) (clientX clientY : Q) :
  canvas st = Some rect ->
  handleCanvasMouseMove pr st clientX clientY
  = (with_hoveredPolygon st
       (fst (hover_loop (hoveredPolygon st)
               (mapScreenToPdf (sheet pr) (viewDimensions st)
                  (clientX - left rect) (clientY - top rect))
               (sheet_polygons (sheet pr)))),
     snd (hover_loop (hoveredPolygon st)
            (mapScreenToPdf (sheet pr) (viewDimensions st)
               (clientX - left rect) (clientY - top rect))
            (sheet_polygons (sheet pr)))).
Proof.
  intros Hc. unfold handleCanvasMouseMove. rewrite Hc. cbv zeta.
  now destruct (hover_loop _ _ _).
Qed.

Lemma is_id_eq (a : option string) (b : string) : is_id a b = true <-> a = Some b.
Proof.
  destruct a as [s|]; simpl; [|split; discriminate].
  rewrite String.eqb_eq. split; congruence.
Qed.

(** What the hover loop leaves: the id of the first polygon hit, if any. *)
Lemma hover_loop_target (hovered : option string) (pt : Point) (ps : list Polygon) :
  fst (hover_loop hovered pt ps) = poly_id <$> List.find (hit pt) ps.
Proof.
  induction ps as [|p ps IH]; simpl.
  - now destruct hovered.
  - destruct (hit pt p); [|exact IH].
    destruct (is_id hovered (poly_id p)) eqn:E; [|reflexivity].
    now apply is_id_eq in E.
Qed.

Lemma hover_loop_cursor (hovered : option string) (pt : Point) (ps : list Polygon) :
  snd (hover_loop hovered pt ps) = None <-> fst (hover_loop hovered pt ps) = hovered.
Proof.
  induction ps as [|p ps IH]; simpl.
  - destruct hovered; simpl; split; congruence.
  - destruct (hit pt p); [|exact IH].
    destruct (is_id hovered (poly_id p)) eqn:E; simpl; [tauto|].
    split; [discriminate|]. intros H. symmetry in H. apply is_id_eq in H. congruence.
Qed.

Lemma click_loop_target (pr : Props) (selected : option string) (pt : Point)
    (ps : list Polygon) :
  fst (click_loop pr selected pt ps)
  = match List.find (hit pt) ps with
    | Some p => if is_id selected (poly_id p) then None else Some (poly_id p)
    | None => None
    end.
Proof.
  induction ps as [|p ps IH]; simpl; [reflexivity|].
  destruct (hit pt p); [|exact IH].
  simpl. apply PlanViewerFacts.newSelection_toggle.
Qed.

(** X7: moving the pointer over the mounted canvas leaves hovered the first
    polygon of the sheet, in list order, that the pointer is inside, and
    nothing when it is inside none; the selection is not touched, and the
    cursor is set exactly when the hovered polygon changes. *)
Theorem hover_follows_first_hit (pr : Props) (st : State) (rect : Rect)
    (clientX clientY : Q) :
  canvas st = Some rect ->
  let pt := mapScreenToPdf (sheet pr) (viewDimensions st)
              (clientX - left rect) (clientY - top rect) in
  let st' := fst (handleCanvasMouseMove pr st clientX clientY) in
  let cursor := snd (handleCanvasMouseMove pr st clientX clientY) in
  hoveredPolygon st' = poly_id <$> List.find (hit pt) (sheet_polygons (sheet pr))
  /\ selectedPolygon st' = selectedPolygon st
  /\ (cursor = None <-> hoveredPolygon st' = hoveredPolygon st)
  /\ (cursor = Some Pointer -> exists id, hoveredPolygon st' = Some id)
  /\ (cursor = Some DefaultCursor -> hoveredPolygon st' = None).
Proof.
  intros Hc. cbv zeta. rewrite (move_at pr st rect clientX clientY Hc).
  cbn [fst snd hoveredPolygon selectedPolygon with_hoveredPolygon].
  set (pt := mapScreenToPdf _ _ _ _).
  split; [apply hover_loop_target|]. split; [reflexivity|].
  split; [apply hover_loop_cursor|].
  generalize (hoveredPolygon st) as hovered. intros hovered.
  induction (sheet_polygons (sheet pr)) as [|p ps IH]; simpl.
  - destruct hovered; simpl; split; intros H; try discriminate; reflexivity.
  - destruct (hit pt p); [|exact IH].
    destruct (is_id hovered (poly_id p)); simpl; split; intros H;
      try discriminate; eauto.
Qed.

Lemma hover_follows_first_hit_witness :
  hoveredPolygon (fst (handleCanvasMouseMove example_props (example_state None) 510 1104))
  = Some "S1_P001"
  /\ snd (handleCanvasMouseMove example_props (example_state None) 510 1104) = Some Pointer.
Proof.
  destruct (hover_follows_first_hit example_props (example_state None) (mkRect 10 20)
              510 1104 eq_refl) as (Hh & _).
  split; [rewrite Hh|]; reflexivity.
Defined.

(** X8: hover and click agree on their target. At one pointer position on
    the mounted canvas, the polygon a move leaves hovered is the one a click
    toggles; where a move leaves nothing hovered, a click clears the
    selection. *)
Theorem click_toggles_what_is_hovered (pr : Props) (st : State) (rect : Rect)
    (clientX clientY : Q) :
  canvas st = Some rect ->
  let hovered := hoveredPolygon (fst (handleCanvasMouseMove pr st clientX clientY)) in
  let selected := selectedPolygon (fst (handleCanvasClick pr st clientX clientY)) in
  (forall id, hovered = Some id ->
     selected = if is_id (selectedPolygon st) id then None else Some id)
  /\ (hovered = None -> selected = None).
Proof.
  intros Hc. cbv zeta.
  rewrite (move_at pr st rect clientX clientY Hc), (click_at pr st rect clientX clientY Hc).
  cbn [fst hoveredPolygon selectedPolygon with_hoveredPolygon with_selectedPolygon].
  rewrite hover_loop_target, click_loop_target.
  destruct (List.find _ _) as [p|]; simpl; split.
  - now intros id [= <-].
  - discriminate.
  - discriminate.
  - reflexivity.
Qed.

Lemma click_toggles_what_is_hovered_witness :
  selectedPolygon (fst (handleCanvasClick example_props (example_state (Some "S1_P001"))
                          510 1104))
  = None.
Proof.
  destruct (click_toggles_what_is_hovered example_props (example_state (Some "S1_P001"))
              (mkRect 10 20) 510 1104 eq_refl) as (Hsome & _).
  exact (Hsome "S1_P001" eq_refl).
Defined.

Lemma with_selectedPolygon_twice (st : State) (a b : option string) :
  with_selectedPolygon (with_selectedPolygon st a) b = with_selectedPolygon st b.
Proof. reflexivity. Qed.

(** X9: clicking is a toggle of period two. Three clicks at one position
    leave the component as one click does, and two clicks at one position
    leave it untouched when nothing was selected before. *)
Theorem click_has_period_two (pr : Props) (st : State) (clientX clientY : Q) :
  let click := fun s => fst (handleCanvasClick pr s clientX clientY) in
  click (click (click st)) = click st
  /\ (selectedPolygon st = None -> click (click st) = st).
Proof.
  cbv zeta. destruct (canvas st) as [rect|] eqn:Hc.
  - assert (Hstep : forall sel,
      fst (handleCanvasClick pr (with_selectedPolygon st sel) clientX clientY)
      = with_selectedPolygon st
          (match List.find (hit (mapScreenToPdf (sheet pr) (viewDimensions st)
                                   (clientX - left rect) (clientY - top rect)))
                   (sheet_polygons (sheet pr)) with
           | Some p => if is_id sel (poly_id p) then None else Some (poly_id p)
           | None => None
           end)).
    { intros sel.
      rewrite (click_at pr (with_selectedPolygon st sel) rect clientX clientY Hc).
      cbn [fst]. rewrite click_loop_target. reflexivity. }
    assert (Hst : st = with_selectedPolygon st (selectedPolygon st)) by now destruct st.
    pose proof (Hstep (selectedPolygon st)) as H1. rewrite <- Hst in H1.
    rewrite H1, !Hstep. split.
    + f_equal. destruct (List.find _ _) as [p|]; [|reflexivity].
      destruct (is_id (selectedPolygon st) (poly_id p)) eqn:E; simpl;
        now rewrite String.eqb_refl.
    + intros Hn. rewrite Hn.
      transitivity (with_selectedPolygon st None).
      * f_equal. destruct (List.find _ _) as [p|]; [|reflexivity].
        simpl. now rewrite String.eqb_refl.
      * rewrite <- Hn. symmetry. exact Hst.
  - unfold handleCanvasClick. rewrite Hc. simpl. rewrite Hc. simpl. rewrite Hc. auto.
Qed.

Lemma find_unique_id (ps before after : list Polygon) (p : Polygon) :
  ps = (before ++ p :: after)%list ->
  NoDup (poly_id <$> ps) ->
  List.find (fun q => is_id (Some (poly_id p)) (poly_id q)) ps = Some p.
Proof.
  intros -> Hnd. induction before as [|q before IH]; simpl.
  - now rewrite String.eqb_refl.
  - simpl in Hnd. apply NoDup_cons in Hnd as [Hq Hnd].
    destruct (String.eqb (poly_id p) (poly_id q)) eqn:E; [|now apply IH].
    apply String.eqb_eq in E. exfalso. apply Hq. rewrite <- E.
    rewrite fmap_app. apply elem_of_app. right. simpl. left.
Qed.

(** X10: from click to detail card. When the ids of the sheet's polygons are
    distinct and the first polygon hit by a click has a non-empty id and was
    not the selected one, the detail card shows that polygon; a polygon
    whose id is the empty string can be selected but gets no card. *)
Theorem clicked_polygon_gets_the_card (pr : Props) (st : State) (rect : Rect)
    (clientX clientY : Q) (before after : list Polygon) (p : Polygon) :
  canvas st = Some rect ->
  sheet_polygons (sheet pr) = (before ++ p :: after)%list ->
  Forall (fun q => hit (mapScreenToPdf (sheet pr) (viewDimensions st)
                          (clientX - left rect) (clientY - top rect)) q = false) before ->
  hit (mapScreenToPdf (sheet pr) (viewDimensions st)
         (clientX - left rect) (clientY - top rect)) p = true ->
  is_id (selectedPolygon st) (poly_id p) = false ->
  NoDup (poly_id <$> sheet_polygons (sheet pr)) ->
  let st' := fst (handleCanvasClick pr st clientX clientY) in
  selectedPolygon st' = Some (poly_id p)
  /\ (poly_id p <> "" -> getSelectedPolygonData pr st' = Some p)
  /\ (poly_id p = "" -> getSelectedPolygonData pr st' = None).
Proof.
  intros Hc Hps Hbefore Hp Hsel Hnd. cbv zeta.
  rewrite (click_at pr st rect clientX clientY Hc). cbn [fst].
  set (pt := mapScreenToPdf _ _ _ _) in *.
  assert (Hfind : List.find (hit pt) (sheet_polygons (sheet pr)) = Some p).
  { rewrite Hps. clear Hps Hnd. induction Hbefore as [|q before Hq _ IH]; simpl.
    - now rewrite Hp.
    - now rewrite Hq. }
  assert (Hs : fst (click_loop pr (selectedPolygon st) pt (sheet_polygons (sheet pr)))
               = Some (poly_id p)).
  { rewrite click_loop_target, Hfind. now rewrite Hsel. }
  rewrite Hs. split; [reflexivity|].
  unfold getSelectedPolygonData. cbn [selectedPolygon with_selectedPolygon Js.truthy_string].
  split.
  - intros Hid. apply String.eqb_neq in Hid. rewrite Hid. simpl.
    now apply (find_unique_id _ before after).
  - intros Hid. rewrite Hid. reflexivity.
Qed.

Lemma clicked_polygon_gets_the_card_witness :
  getSelectedPolygonData example_props
    (fst (handleCanvasClick example_props (example_state None) 510 1104))
  = Some (square "S1_P001" "building" 100 100 300 300).
Proof.
  destruct (clicked_polygon_gets_the_card example_props (example_state None)
              (mkRect 10 20) 510 1104 []
              [square "S1_P002" "concrete" 200 200 400 400]
              (square "S1_P001" "building" 100 100 300 300))
    as (_ & Hcard & _).
  - reflexivity.
  - reflexivity.
  - constructor.
  - reflexivity.
  - reflexivity.
  - vm_compute. repeat constructor; intros H;
      repeat (apply elem_of_cons in H as [H|H]; [discriminate|]); inversion H.
  - apply Hcard. discriminate.
Defined.

End InteractionFacts.

(** ** ResultsPanel: filters, sheets and the name of the download *)

Module PanelFacts.
Import ResultsPanel Shapes Fixtures.
Import Stdlib.Strings.Ascii.

Lemma in_filter {A} (f : A -> bool) (l : list A) (a : A) :
  a ∈ List.filter f l <-> a ∈ l /\ f a = true.
Proof. rewrite !list_elem_of_In. apply List.filter_In. Qed.

(** X12: the polygon list shows exactly the polygons of the result that pass
    the sheet, type and review filters, never more than the result has; with
    no sheet selected, type all and the review box off it shows all of them;
    and with type all and the review box on it shows exactly the polygons
    counted in the label of the review box. *)
Theorem filters_select_polygons (st : State) (res : Results) :
  (forall p, p ∈ filteredPolygons st res <->
     p ∈ polygons res
     /\ sheetMatch st p = true
     /\ (selectedType st = "all" \/ poly_type p = selectedType st)
     /\ (showReviewOnly st = true -> review_needed p = true))
  /\ (length (filteredPolygons st res) <= length (polygons res))%nat
  /\ (selectedSheet st = None -> selectedType st = "all" -> showReviewOnly st = false ->
      filteredPolygons st res = polygons res)
  /\ (selectedType st = "all" -> showReviewOnly st = true ->
      filteredPolygons st res = reviewNeededPolygons st res).
Proof.
  split; [|split; [|split]].
  - intros p. unfold filteredPolygons. rewrite in_filter.
    rewrite !andb_true_iff, !orb_true_iff, negb_true_iff, !String.eqb_eq.
    split.
    + intros (Hin & (Hs & Ht) & Hr). repeat split; try assumption.
      intros Hon. destruct Hr as [Hr|Hr]; congruence.
    + intros (Hin & Hs & Ht & Hr). repeat split; try assumption.
      destruct (showReviewOnly st); [right; now apply Hr | now left].
  - apply List.filter_length_le.
  - intros Hs Ht Hr. unfold filteredPolygons, sheetMatch. rewrite Hs, Ht, Hr. simpl.
    induction (polygons res) as [|p ps IH]; simpl; [reflexivity | now rewrite IH].
  - intros Ht Hr. unfold filteredPolygons, reviewNeededPolygons. rewrite Ht, Hr. simpl.
    apply List.filter_ext. intros p. now rewrite andb_true_r.
Qed.

Lemma filters_select_polygons_witness :
  filteredPolygons (mkState "all" None false None) example_results
  = polygons example_results.
Proof.
  destruct (filters_select_polygons (mkState "all" None false None) example_results)
    as (_ & _ & Hall & _).
  now apply Hall.
Defined.

(** X13: the review filter can get stuck. Switching, with the review box
    on, to a sheet none of whose polygons needs review leaves the box on,
    the polygon list empty, and the review box itself not rendered. *)
Theorem review_filter_can_hide_itself (st : State) (res : Results) (s : Sheet) :
  showReviewOnly st = true ->
  Forall (fun p => poly_sheet p = sheet_number s -> review_needed p = false)
    (polygons res) ->
  let st' := select_sheet_tab st s in
  showReviewOnly st' = true
  /\ filteredPolygons st' res = []
  /\ review_filter_rendered st' res = false.
Proof.
  intros Hon Hnone. cbv zeta.
  assert (Hrev : reviewNeededPolygons (select_sheet_tab st s) res = []).
  { unfold reviewNeededPolygons, sheetMatch. cbn [selectedSheet select_sheet_tab].
    induction Hnone as [|p ps Hp _ IH]; simpl; [reflexivity|].
    destruct (Z.eqb (poly_sheet p) (sheet_number s)) eqn:E; simpl; [|exact IH].
    apply Z.eqb_eq in E. now rewrite (Hp E). }
  split; [exact Hon|]. split.
  - unfold filteredPolygons, sheetMatch. cbn [selectedSheet select_sheet_tab
      showReviewOnly selectedType]. rewrite Hon.
    clear Hrev. induction Hnone as [|p ps Hp _ IH]; simpl; [reflexivity|].
    destruct (Z.eqb (poly_sheet p) (sheet_number s)) eqn:E; simpl; [|exact IH].
    apply Z.eqb_eq in E. rewrite (Hp E). now rewrite andb_false_r.
  - unfold review_filter_rendered. now rewrite Hrev.
Qed.

Lemma review_filter_can_hide_itself_witness :
  let st' := select_sheet_tab (mkState "all" (Some 2%Z) true None) example_sheet in
  showReviewOnly st' = true
  /\ filteredPolygons st' example_results = []
  /\ review_filter_rendered st' example_results = false.
Proof.
  apply (review_filter_can_hide_itself (mkState "all" (Some 2%Z) true None)
           example_results example_sheet).
  - reflexivity.
  - repeat constructor.
Defined.

Lemma card_click_sheet (st : State) (p : Polygon) :
  selectedSheet (handlePolygonCardClick st p) = Some (poly_sheet p).
Proof.
  unfold handlePolygonCardClick. cbn [selectedSheet].
  destruct (selectedSheet st) as [n|]; [|reflexivity].
  destruct (Z.eqb n (poly_sheet p)) eqn:E; [|reflexivity].
  apply Z.eqb_eq in E. now subst.
Qed.

Lemma find_sheet_number (n : Z) (l : list Sheet) (s : Sheet) :
  List.find (fun s => Z.eqb (sheet_number s) n) l = Some s -> sheet_number s = n.
Proof. intros H. apply List.find_some in H as [_ H]. now apply Z.eqb_eq. Qed.

Lemma same_id_eq (a b : option string) : PlanViewer.same_id a b = true <-> a = b.
Proof.
  destruct a as [s|], b as [t|]; simpl; try (split; congruence).
  rewrite String.eqb_eq. split; congruence.
Qed.

(** X14: clicking the card of a listed polygon selects the sheet of the
    polygon and highlights it, keeps the polygon in the list, and, when the
    sheet is among the sheets of the result, renders the viewer on a sheet
    with that number. The effect of the viewer then makes the highlight its
    selection if the id is not empty and the viewer is new or was rendered
    with another highlight before the click; when the viewer was already
    rendered with this highlight, the effect does not run and the viewer is
    left as it is. *)
Theorem card_click_shows_the_polygon (st : State) (res : Results) (p : Polygon) :
  p ∈ filteredPolygons st res ->
  let st' := handlePolygonCardClick st p in
  selectedSheet st' = Some (poly_sheet p)
  /\ highlightedPolygonId st' = Some (poly_id p)
  /\ p ∈ filteredPolygons st' res
  /\ (forall pr, viewer_props st' res = Some pr ->
        sheet_number (PlanViewer.sheet pr) = poly_sheet p
        /\ PlanViewer.highlightedPolygonId pr = Some (poly_id p)
        /\ (poly_id p <> "" -> viewer_dep st res <> Some (Some (poly_id p)) ->
            forall vst,
              PlanViewer.selectedPolygon
                (PlanViewer.highlight_effect (viewer_dep st res) pr vst)
              = Some (poly_id p))
        /\ (viewer_dep st res = Some (Some (poly_id p)) ->
            forall vst, PlanViewer.highlight_effect (viewer_dep st res) pr vst = vst)).
Proof.
  intros Hin. cbv zeta. pose proof (card_click_sheet st p) as Hs.
  split; [exact Hs|]. split; [reflexivity|]. split.
  - unfold filteredPolygons in *. apply in_filter in Hin as [Hin Hf].
    apply in_filter. split; [exact Hin|].
    unfold sheetMatch in *. rewrite Hs. rewrite Z.eqb_refl.
    cbn [selectedType showReviewOnly handlePolygonCardClick].
    apply andb_true_iff in Hf as [Hf Hr]. apply andb_true_iff in Hf as [_ Ht].
    now rewrite Ht, Hr.
  - intros pr Hpr. unfold viewer_props, currentSheet in Hpr. rewrite Hs in Hpr.
    destruct (List.find _ _) as [s|] eqn:E; [|discriminate].
    injection Hpr as <-. cbn [PlanViewer.sheet PlanViewer.highlightedPolygonId].
    split; [now apply find_sheet_number in E|]. split; [reflexivity|].
    assert (Hsync : poly_id p <> "" -> forall vst,
      PlanViewer.selectedPolygon
        (PlanViewer.sync_highlight
           (PlanViewer.mkProps s (highlightedPolygonId (handlePolygonCardClick st p)) true)
           vst)
      = Some (poly_id p)).
    { intros Hid vst. unfold PlanViewer.sync_highlight.
      cbn [PlanViewer.highlightedPolygonId highlightedPolygonId handlePolygonCardClick
           Js.truthy_string].
      apply String.eqb_neq in Hid. now rewrite Hid. }
    split.
    + intros Hid Hdep vst. unfold PlanViewer.highlight_effect.
      destruct (viewer_dep st res) as [previous|]; [|now apply Hsync].
      cbn [PlanViewer.highlightedPolygonId highlightedPolygonId handlePolygonCardClick].
      destruct (PlanViewer.same_id previous (Some (poly_id p))) eqn:Es;
        [|now apply Hsync].
      apply same_id_eq in Es. congruence.
    + intros Hdep vst. rewrite Hdep. unfold PlanViewer.highlight_effect.
      cbn [PlanViewer.highlightedPolygonId highlightedPolygonId handlePolygonCardClick].
      now rewrite (proj2 (same_id_eq _ _) eq_refl).
Qed.

Lemma card_click_shows_the_polygon_witness :
  let p := square "S1_P002" "concrete" 200 200 400 400 in
  let st := mkState "concrete" (Some 1%Z) false None in
  let st' := handlePolygonCardClick st p in
  (p ∈ filteredPolygons st' example_results)
  /\ PlanViewer.selectedPolygon
       (PlanViewer.highlight_effect (viewer_dep st example_results)
          (PlanViewer.mkProps example_sheet (Some "S1_P002") true) (example_state None))
     = Some "S1_P002"
  /\ PlanViewer.highlight_effect (viewer_dep st' example_results)
       (PlanViewer.mkProps example_sheet (Some "S1_P002") true) (example_state None)
     = example_state None.
Proof.
  destruct (card_click_shows_the_polygon (mkState "concrete" (Some 1%Z) false None)
              example_results (square "S1_P002" "concrete" 200 200 400 400))
    as (_ & _ & Hin & Hview).
  { apply in_filter. split; [|reflexivity]. right. left. }
  destruct (card_click_shows_the_polygon
              (handlePolygonCardClick (mkState "concrete" (Some 1%Z) false None)
                 (square "S1_P002" "concrete" 200 200 400 400))
              example_results (square "S1_P002" "concrete" 200 200 400 400) Hin)
    as (_ & _ & _ & Hagain).
  destruct (Hview (PlanViewer.mkProps example_sheet (Some "S1_P002") true) eq_refl)
    as (_ & _ & Hfirst & _).
  destruct (Hagain (PlanViewer.mkProps example_sheet (Some "S1_P002") true) eq_refl)
    as (_ & _ & _ & Hsame).
  split; [exact Hin|]. split.
  - apply Hfirst; discriminate.
  - apply Hsame. reflexivity.
Defined.

(** X15: when a result with sheets arrives and no sheet is selected, the
    effect selects the first sheet, the viewer is rendered on that very
    sheet, and every listed polygon belongs to it. *)
Theorem first_sheet_is_shown (st : State) (res : Results) (s0 : Sheet) (rest : list Sheet) :
  sheets res = s0 :: rest ->
  selectedSheet st = None ->
  let st' := auto_select_sheet st res in
  selectedSheet st' = Some (sheet_number s0)
  /\ currentSheet st' res = Some s0
  /\ (forall p, p ∈ filteredPolygons st' res -> poly_sheet p = sheet_number s0)
  /\ auto_select_sheet st' res = st'.
Proof.
  intros Hsheets Hnone. cbv zeta.
  assert (Hst : auto_select_sheet st res
                = mkState (selectedType st) (Some (sheet_number s0)) (showReviewOnly st)
                    (highlightedPolygonId st)).
  { unfold auto_select_sheet. now rewrite Hsheets, Hnone. }
  rewrite Hst. split; [reflexivity|]. split; [|split].
  - unfold currentSheet. cbn [selectedSheet]. rewrite Hsheets. simpl.
    now rewrite Z.eqb_refl.
  - intros p Hp. apply in_filter in Hp as [_ Hf].
    apply andb_true_iff in Hf as [Hf _]. apply andb_true_iff in Hf as [Hf _].
    unfold sheetMatch in Hf. cbn [selectedSheet] in Hf. now apply Z.eqb_eq.
  - unfold auto_select_sheet. rewrite Hsheets. cbn [selectedSheet].
    destruct (Z.eqb (sheet_number s0) 0); reflexivity.
Qed.

Lemma first_sheet_is_shown_witness :
  currentSheet (auto_select_sheet (mkState "all" None false None) example_results)
    example_results
  = Some example_sheet.
Proof.
  destruct (first_sheet_is_shown (mkState "all" None false None) example_results
              example_sheet [] eq_refl eq_refl) as (_ & H & _).
  exact H.
Defined.

Lemma substring_all (s : string) : String.substring 0 (String.length s) s = s.
Proof. induction s as [|c s IH]; simpl; [reflexivity | now rewrite IH]. Qed.

Lemma replace_first_pdf (base rest : string) :
  has_dot base = false ->
  Js.replace ".pdf" "" (base +:+ ".pdf" +:+ rest) = base +:+ rest.
Proof.
  induction base as [|c base IH]; intros Hdot.
  - change ("" +:+ ".pdf" +:+ rest)
      with (String "." (String "p" (String "d" (String "f" rest)))).
    destruct rest as [|r rest]; [reflexivity|].
    unfold Js.replace. simpl. now rewrite substring_all.
  - simpl in Hdot. destruct (Ascii.eqb c (Ascii.ascii_of_nat 46)) eqn:E; [discriminate|].
    change (String c base +:+ ".pdf" +:+ rest)
      with (String c (base +:+ ".pdf" +:+ rest)).
    change (String c base +:+ rest) with (String c (base +:+ rest)).
    cbn [Js.replace String.prefix].
    destruct (Ascii.ascii_dec "."%char c) as [<-|_]; [discriminate|].
    now rewrite (IH Hdot).
Qed.

Lemma replace_without_dot (s : string) :
  has_dot s = false -> Js.replace ".pdf" "" s = s.
Proof.
  induction s as [|c s IH]; intros Hdot; [reflexivity|].
  simpl in Hdot. destruct (Ascii.eqb c (Ascii.ascii_of_nat 46)) eqn:E; [discriminate|].
  cbn [Js.replace String.prefix].
  destruct (Ascii.ascii_dec "."%char c) as [<-|_]; [discriminate|].
  now rewrite (IH Hdot).
Qed.

(** X16: the download is named after the file with its first [.pdf] cut
    out, wherever it stands: for a file name [base.pdf] followed by
    anything, with no dot in [base], the name is [base], what followed, and
    [_results.csv]; a file name without a dot is kept whole. The filters
    play no part. *)
Theorem download_name_drops_first_pdf (number_to_string : Q -> string)
    (st : State) (res : Results) (base rest : string) :
  has_dot base = false ->
  download_name (downloadCSV number_to_string st
                   (with_filename res (base +:+ ".pdf" +:+ rest)))
  = base +:+ rest +:+ "_results.csv"
  /\ download_name (downloadCSV number_to_string st (with_filename res base))
     = base +:+ "_results.csv".
Proof.
  intros Hdot. unfold downloadCSV, with_filename. cbn [download_name filename].
  rewrite (replace_first_pdf base rest Hdot), (replace_without_dot base Hdot).
  split; [|reflexivity].
  apply ResultsPanelFacts.append_assoc.
Qed.

Lemma download_name_drops_first_pdf_witness :
  download_name (downloadCSV number_to_string (mkState "all" None false None)
                   (with_filename example_results "plan.pdf.bak"))
  = "plan.bak_results.csv".
Proof.
  destruct (download_name_drops_first_pdf number_to_string (mkState "all" None false None)
              example_results "plan" ".bak" eq_refl) as [H _].
  exact H.
Defined.

End PanelFacts.

(** ** Legend *)

Module LegendFacts.
Import Legend.

(** X17: every item of the legend names a surface type the viewer has
    colours for, with the stroke colour of the viewer as its colour and
    border and the label of the viewer as its short label; its background is
    the fill of the viewer for building, concrete and asphalt, while for
    pervious the legend paints opacity 0.4 where the viewer fills with 0.3;
    water, which the viewer has colours for, has no item. *)
Theorem legend_matches_viewer (item : Item) :
  item ∈ LEGEND_ITEMS ->
  (exists c,
     PlanViewer.SURFACE_COLORS !! type item = Some c
     /\ PlanViewer.stroke c = color item
     /\ PlanViewer.label c = shortLabel item
     /\ border item = "2px solid " +:+ PlanViewer.stroke c
     /\ (type item <> "pervious" -> backgroundColor item = PlanViewer.fill c)
     /\ (type item = "pervious" ->
         backgroundColor item = "rgba(0, 200, 0, 0.4)"
         /\ PlanViewer.fill c = "rgba(0, 200, 0, 0.3)"))
  /\ type item <> "water"
  /\ is_Some (PlanViewer.SURFACE_COLORS !! "water").
Proof.
  intros Hin. unfold LEGEND_ITEMS in Hin.
  repeat (apply elem_of_cons in Hin as [->|Hin]); [| | | |inversion Hin].
  all: split; [|split; [discriminate | vm_compute; eauto]].
  all: eexists; split; [vm_compute; reflexivity|].
  all: repeat split; try reflexivity; try discriminate; intros H; try reflexivity;
    now contradict H.
Qed.

Lemma legend_matches_viewer_witness :
  backgroundColor (mkItem "building" "rgb(200, 0, 0)" "Building Footprint" "Bldg")
  = "rgba(200, 0, 0, 0.4)".
Proof.
  destruct (legend_matches_viewer
              (mkItem "building" "rgb(200, 0, 0)" "Building Footprint" "Bldg"))
    as ((c & Hc & _ & _ & _ & Hbg & _) & _).
  - left.
  - rewrite Hbg by discriminate. vm_compute in Hc. now injection Hc as <-.
Defined.

End LegendFacts.

(** ** App: what holds in every run *)

Module RunFacts.
Import App Fixtures.

Lemma run_snoc (w : World) (es : list Event) (e : Event) :
  run w (es ++ [e]) = step (run w es) e.
Proof. unfold run. now rewrite fold_left_app. Qed.

Lemma sound_initial : sound initial_world.
Proof.
  constructor; simpl; discriminate.
Qed.

Lemma sound_clear (w : World) : sound w -> sound (clear_poll_interval w).
Proof.
  intros Hs. unfold clear_poll_interval.
  destruct (pollIntervalRef (app w)) as [h0|] eqn:E; [|exact Hs].
  destruct Hs as [Hl He Hr Hf].
  constructor; cbn [app results loading error pollIntervalRef intervals next_handle].
  - exact Hl.
  - exact He.
  - discriminate.
  - intros h j H. apply lookup_delete_Some in H as [_ H]. now apply Hf in H.
Qed.

Lemma sound_setProgress (f : Progress -> Progress) (w : World) :
  sound w -> sound (setProgress f w).
Proof. intros [Hl He Hr Hf]. now constructor. Qed.

(** A handler that ends with an error or a result and [setLoading(false)]. *)
Lemma sound_settle (w : World) (r : option Results) (e : option string) :
  sound w -> (forall s, e = Some s -> s <> "") ->
  sound (setLoading false (setError e (setResults r w))).
Proof.
  intros [Hl He Hr Hf] Hne. constructor; simpl; try assumption. discriminate.
Qed.

Lemma sound_poll_resume (o : Outcome) (w : World) : sound w -> sound (poll_resume o w).
Proof.
  intros Hs. destruct o as [sd|].
  - destruct (AppFacts.status_cases sd) as [H|[H|[H1 H2]]].
    + rewrite AppFacts.poll_resume_completed by assumption.
      pose proof (sound_clear _ (sound_setProgress (fun _ => progress_of sd) w Hs))
        as [Hl He Hr Hf].
      destruct (Api.result sd); constructor; simpl; try assumption; discriminate.
    + rewrite AppFacts.poll_resume_error by assumption.
      pose proof (sound_clear _ (sound_setProgress (fun _ => progress_of sd) w Hs))
        as [Hl He Hr Hf].
      constructor; simpl; try assumption; [discriminate|].
      intros s [= <-]. now apply JsFacts.string_or_nonempty.
    + rewrite AppFacts.poll_resume_other by assumption. now apply sound_setProgress.
  - rewrite AppFacts.poll_resume_rejected.
    pose proof (sound_clear _ Hs) as [Hl He Hr Hf].
    constructor; simpl; try assumption; [discriminate|].
    now intros s [= <-].
Qed.

Lemma sound_step (w : World) (e : Event) : sound w -> sound (step w e).
Proof.
  intros Hs. destruct e as [file|file resp|message|h|jobId o]; cbn [step].
  - destruct Hs as [Hl He Hr Hf]. constructor; simpl; auto; discriminate.
  - destruct Hs as [Hl He Hr Hf]. constructor; simpl; auto.
    + intros h [= <-]. rewrite lookup_insert_eq. eauto.
    + intros h j H. destruct (decide (next_handle w = h)) as [<-|Hne]; [lia|].
      rewrite lookup_insert_ne in H by assumption. apply Hf in H. lia.
  - destruct Hs as [Hl He Hr Hf]. constructor; simpl; auto; [discriminate|].
    intros s [= <-]. now apply JsFacts.string_or_nonempty.
  - destruct (intervals w !! h); [|exact Hs].
    destruct Hs as [Hl He Hr Hf]. now constructor.
  - now apply sound_poll_resume.
Qed.

Lemma sound_run (es : list Event) (w : World) : sound w -> sound (run w es).
Proof.
  revert w. induction es as [|e es IH]; intros w Hs; [exact Hs|].
  apply IH. now apply sound_step.
Qed.

(** X19: in every world reached from the first render, while [loading] is
    on neither a result nor an error is stored; a stored error is never the
    empty string, so it is the error displayed; the ref, when set, holds the
    id of a running timer; and the id the next [setInterval] returns belongs
    to no running timer. *)
Theorem app_stays_sound (es : list Event) :
  let w := run initial_world es in
  (loading (app w) = true -> results (app w) = None /\ error (app w) = None)
  /\ view_error (render (app w)) = error (app w)
  /\ (forall h, pollIntervalRef (app w) = Some h -> is_Some (intervals w !! h))
  /\ intervals w !! next_handle w = None.
Proof.
  cbv zeta. destruct (sound_run es initial_world sound_initial) as [Hl He Hr Hf].
  split; [exact Hl|]. split; [|split; [exact Hr|]].
  - unfold render. cbn [view_error]. destruct (error (app (run initial_world es))) as [s|] eqn:E;
      [|reflexivity].
    simpl. pose proof (He s eq_refl) as Hne. apply String.eqb_neq in Hne. now rewrite Hne.
  - destruct (intervals _ !! next_handle _) as [j|] eqn:E; [|reflexivity].
    apply Hf in E. lia.
Qed.

Example sound_after_a_job :
  let w := run initial_world
             [Submit plan_pdf; StartResolved plan_pdf start_response; Tick 1;
              StatusSettled "job-1" (Resolved error_snapshot)] in
  loading (app w) = false
  /\ view_error (render (app w)) = Some "Could not read page 2"
  /\ pollIntervalRef (app w) = None.
Proof. vm_compute. auto. Qed.

Lemma polls_only_mono (jobs jobs' : list string) (w : World) :
  jobs ⊆ jobs' -> polls_only jobs w -> polls_only jobs' w.
Proof.
  intros Hsub [Ht Hr]. split.
  - intros h j H. apply Hsub. now apply (Ht h).
  - intros url H. destruct (Hr url H) as (j & Hj & E). exists j. split; [now apply Hsub | exact E].
Qed.

Lemma polls_only_poll_call (jobs : list string) (j : string) (w : World) :
  j ∈ jobs -> polls_only jobs w -> polls_only jobs (poll_call j w).
Proof.
  intros Hj [Ht Hr]. split; [exact Ht|].
  intros url H. unfold poll_call in H. cbn [send requests] in H.
  apply elem_of_app in H as [H|H]; [now apply Hr|].
  apply list_elem_of_singleton in H. exists j. now split.
Qed.

Lemma polls_only_poll_resume (jobs : list string) (o : Outcome) (w : World) :
  polls_only jobs w -> polls_only jobs (poll_resume o w).
Proof.
  intros [Ht Hr]. split.
  - intros h j H.
    destruct (AppFacts.poll_resume_timers o w) as [[Hi _]|[Hi _]]; rewrite Hi in H.
    + now apply (Ht h).
    + rewrite AppFacts.clear_poll_interval_intervals in H.
      destruct (pollIntervalRef (app w)); [|now apply (Ht h)].
      apply lookup_delete_Some in H as [_ H]. now apply (Ht h).
  - intros url H. rewrite AppFacts.poll_resume_requests in H. now apply Hr.
Qed.

Lemma polls_only_step (jobs : list string) (w : World) (e : Event) :
  polls_only jobs w ->
  polls_only (jobs ++ match starts_job e with Some j => [j] | None => [] end) (step w e).
Proof.
  intros Hp. destruct e as [file|file resp|message|h|jobId o]; cbn [step starts_job].
  - rewrite app_nil_r. destruct Hp as [Ht Hr]. split; [exact Ht|].
    intros url H. unfold handleFileUpload_call in H. cbn [send requests] in H.
    apply elem_of_app in H as [H|H]; [now apply Hr|].
    apply list_elem_of_singleton in H. discriminate.
  - unfold handleFileUpload_resume. cbn [Api.returns Api.startProcessJob].
    apply polls_only_poll_call; [apply elem_of_app; right; left|].
    destruct Hp as [Ht Hr]. split.
    + intros h j H. cbn in H. apply elem_of_app.
      destruct (decide (next_handle w = h)) as [Heq|Hne].
      * rewrite Heq, lookup_insert_eq in H. injection H as <-. right. left.
      * rewrite lookup_insert_ne in H by assumption. left. now apply (Ht h).
    + intros url H. cbn in H. destruct (Hr url H) as (j & Hj & E).
      exists j. split; [apply elem_of_app; now left | exact E].
  - rewrite app_nil_r. exact Hp.
  - rewrite app_nil_r. destruct (intervals w !! h) as [j|] eqn:E; [|exact Hp].
    apply polls_only_poll_call; [|exact Hp]. destruct Hp as [Ht _]. now apply (Ht h).
  - rewrite app_nil_r. now apply polls_only_poll_resume.
Qed.

Lemma started_jobs_snoc (es : list Event) (e : Event) :
  started_jobs (es ++ [e])
  = (started_jobs es ++ match starts_job e with Some j => [j] | None => [] end)%list.
Proof.
  unfold started_jobs. rewrite omap_app. simpl. now destruct (starts_job e).
Qed.

(** X20: the front end polls only jobs it was given. In every run from the
    first render, each running timer is bound to a job id that a resolved
    start returned earlier in the run, and each GET request sent is the
    status request of such a job id. *)
Theorem polls_only_started_jobs (es : list Event) :
  let w := run initial_world es in
  (forall h j, intervals w !! h = Some j -> j ∈ started_jobs es)
  /\ (forall url, Api.Get url ∈ requests w ->
        exists j, j ∈ started_jobs es
                  /\ Api.Get url = Api.request (Api.getProcessStatus j)).
Proof.
  cbv zeta. change (polls_only (started_jobs es) (run initial_world es)).
  induction es as [|e es IH] using rev_ind.
  - split; simpl.
    + intros h j H. rewrite lookup_empty in H. discriminate.
    + intros url H. inversion H.
  - rewrite run_snoc, started_jobs_snoc. now apply polls_only_step.
Qed.

Example polls_of_a_run :
  requests (run initial_world
              [Submit plan_pdf; StartResolved plan_pdf start_response; Tick 1; Tick 2])
  = [Api.Post "http://localhost:8000/api/process/start" plan_pdf;
     Api.Get "http://localhost:8000/api/process/status/job-1";
     Api.Get "http://localhost:8000/api/process/status/job-1"].
Proof. vm_compute. reflexivity. Qed.

End RunFacts.

(** ** The page: clicks and start requests *)

Module GateFacts.
Import Page Fixtures.

Lemma page_run_snoc (st : State) (es : list Event) (e : Event) :
  run st (es ++ [e]) = step (run st es) e.
Proof. unfold run. now rewrite fold_left_app. Qed.

Lemma handled_no_upload (st : State) (r : FileUpload.State * list FileUpload.Effect) :
  (forall f, FileUpload.OnUpload f ∉ snd r) -> sent (handled st r) = sent st.
Proof.
  intros Hno. unfold sent, handled. cbn [world].
  destruct r as [fst effects]. cbn [snd] in *. revert Hno.
  generalize (world st) as w. induction effects as [|eff effects IH]; intros w Hno;
    [reflexivity|].
  destruct eff as [m|f|]; cbn [deliver].
  - apply IH. intros f H. apply (Hno f). now right.
  - exfalso. apply (Hno f). left.
  - apply IH. intros f H. apply (Hno f). now right.
Qed.

Lemma handleFile_no_upload (fst : FileUpload.State) (file f : File) :
  FileUpload.OnUpload f ∉ snd (FileUpload.handleFile fst file).
Proof.
  unfold FileUpload.handleFile.
  destruct (negb (String.eqb (file_type file) "application/pdf")); simpl; intros H.
  - apply list_elem_of_singleton in H. discriminate.
  - inversion H.
Qed.

(** What one event adds to the files sent to the start endpoint. *)
Lemma sent_step (st : State) (e : Event) :
  sent (step st e)
  = (sent st
     ++ match e, FileUpload.selectedFile (upload st) with
        | ClickProcess, Some file =>
            if App.loading (App.app (world st)) then [] else [file]
        | _, _ => []
        end)%list.
Proof.
  destruct e; cbn [step].
  - rewrite app_nil_r. apply handled_no_upload. intros f. unfold FileUpload.handleDrag.
    repeat case_match; simpl; intros Hin; inversion Hin.
  - rewrite app_nil_r. apply handled_no_upload. intros f. unfold FileUpload.handleDrop.
    destruct files; [simpl; intros H; inversion H | apply handleFile_no_upload].
  - rewrite app_nil_r. apply handled_no_upload. intros f. unfold FileUpload.handleChange.
    destruct files; [simpl; intros H; inversion H | apply handleFile_no_upload].
  - rewrite app_nil_r. apply handled_no_upload. intros f. simpl. intros H.
    apply list_elem_of_singleton in H. discriminate.
  - unfold FileUpload.upload_button, FileUpload.handleUpload.
    destruct (FileUpload.selectedFile (upload st)) as [file|]; [|now rewrite app_nil_r].
    destruct (App.loading (App.app (world st))); simpl; [now rewrite app_nil_r|].
    unfold sent, handled. cbn [world snd deliver].
    apply (PageFacts.started_files_step (world st) (App.Submit file)).
  - unfold sent. cbn [world]. now rewrite PageFacts.started_files_step.
  - unfold sent. cbn [world]. now rewrite PageFacts.started_files_step.
  - unfold sent. cbn [world]. now rewrite PageFacts.started_files_step.
  - unfold sent. cbn [world]. now rewrite PageFacts.started_files_step.
Qed.

(** X21: the loading gate. While [App] is loading, no event of the page
    sends a start request; when it is not, a click on the button sends
    exactly one, for the selected file; and in every run from the first
    render there are no more start requests than clicks on the button. *)
Theorem start_requests_need_clicks (st : State) (e : Event) (es : list Event) :
  (App.loading (App.app (world st)) = true ->
   started_files (App.requests (world (step st e)))
   = started_files (App.requests (world st)))
  /\ (forall file,
        App.loading (App.app (world st)) = false ->
        FileUpload.selectedFile (upload st) = Some file ->
        started_files (App.requests (world (step st ClickProcess)))
        = (started_files (App.requests (world st)) ++ [file])%list)
  /\ (length (started_files (App.requests (world (run initial es)))) <= clicks es)%nat.
Proof.
  split; [|split].
  - intros Hl. change (sent (step st e) = sent st). rewrite sent_step, Hl.
    destruct e, (FileUpload.selectedFile (upload st)); apply app_nil_r.
  - intros file Hl Hsel. change (sent (step st ClickProcess) = (sent st ++ [file])%list).
    now rewrite sent_step, Hl, Hsel.
  - change (length (sent (run initial es)) <= clicks es)%nat.
    induction es as [|e' es' IH] using rev_ind; [simpl; lia|].
    rewrite page_run_snoc, sent_step. unfold clicks in *.
    rewrite List.filter_app, !length_app.
    destruct e'; simpl; try lia.
    destruct (FileUpload.selectedFile _); [|simpl; lia].
    destruct (App.loading _); simpl; lia.
Qed.

Lemma start_requests_need_clicks_witness :
  started_files (App.requests (world
    (step (run initial [Change [plan_pdf]; ClickProcess]) ClickProcess)))
  = started_files (App.requests (world (run initial [Change [plan_pdf]; ClickProcess]))).
Proof.
  destruct (start_requests_need_clicks (run initial [Change [plan_pdf]; ClickProcess])
              ClickProcess []) as (Hgate & _).
  apply Hgate. reflexivity.
Defined.

End GateFacts.

(** ** One ref for every job: what overlapping jobs do *)

Module SessionFacts.
Import App Fixtures.


(** C2: with two jobs started one after the other, a job that has
    completed is polled again. In [overlapping_session] the ref holds the
    timer of the third job when the completed snapshot of the second job
    arrives; the handler clears that timer and the ref, the timer of the
    second job stays, and at its next tick a further status request for the
    second job goes out. *)
Theorem completed_job_is_polled_again :
  let st := Page.run Page.initial overlapping_session in
  let st1 := Page.step st (Page.StatusSettled "job-2" (Resolved completed_snapshot)) in
  let st2 := Page.step st1 (Page.Tick 2) in
  (pollIntervalRef (app (Page.world st)) = Some 3%positive
   /\ intervals (Page.world st) !! 2%positive = Some "job-2"
   /\ intervals (Page.world st) !! 3%positive = Some "job-3")
  /\ (pollIntervalRef (app (Page.world st1)) = None
      /\ intervals (Page.world st1) !! 3%positive = None
      /\ intervals (Page.world st1) !! 2%positive = Some "job-2")
  /\ length (polls_of "job-2" (requests (Page.world st1))) = 1%nat
  /\ length (polls_of "job-2" (requests (Page.world st2))) = 2%nat.
Proof. vm_compute. repeat split. Qed.

(** C5: with two jobs started one after the other, a failed status
    request is sent again. In [overlapping_session] a failed status request
    of the second job surfaces the error Lost connection to processing job
    and clears the timer the ref holds, that of the third job; the timer of
    the second job stays, and at its next tick the status request for the
    second job is sent again. *)
Theorem failed_poll_is_sent_again :
  let st := Page.run Page.initial overlapping_session in
  let st1 := Page.step st (Page.StatusSettled "job-2" Rejected) in
  let st2 := Page.step st1 (Page.Tick 2) in
  error (app (Page.world st1)) = Some "Lost connection to processing job"
  /\ (pollIntervalRef (app (Page.world st1)) = None
      /\ intervals (Page.world st1) !! 3%positive = None
      /\ intervals (Page.world st1) !! 2%positive = Some "job-2")
  /\ length (polls_of "job-2" (requests (Page.world st1))) = 1%nat
  /\ length (polls_of "job-2" (requests (Page.world st2))) = 2%nat.
Proof. vm_compute. repeat split. Qed.

End SessionFacts.
